(** * swgoh-portraits: the portrait server of [main.go]

    A shallow embedding of [main.go] (package [main]) and of the parts of the
    Go standard library and of [golang.org/x/image] that it calls, followed by
    the properties of the request handler and of the portrait builder.

    Layout of the development:
    - [GoInt], [strconv], [image], [draw], [fixed], [font], [http]: the
      library calls made by [main.go], with the arithmetic of Go's fixed
      width integers written out;
    - the program itself, definition by definition, under the names of the
      source;
    - the properties. *)

From Stdlib Require Import ZArith Lia Bool List String Ascii DecimalString.
From Stdlib Require DecimalPos.
From stdpp Require Import base option strings gmap.

Local Open Scope string_scope.
Local Open Scope Z_scope.

(** ** Go's [int] (64 bits, two's complement) *)

Module GoInt.

Definition min_int : Z := - 2 ^ 63.
Definition max_int : Z := 2 ^ 63 - 1.

Definition in_range (z : Z) : Prop := min_int <= z <= max_int.

(** The value of an arithmetic result once it is stored in an [int]. *)
Definition wrap (z : Z) : Z := (z + 2 ^ 63) mod 2 ^ 64 - 2 ^ 63.

Definition add (a b : Z) : Z := wrap (a + b).
Definition sub (a b : Z) : Z := wrap (a - b).

(** Go's [/] on integers truncates toward zero. *)
Definition div (a b : Z) : Z := wrap (Z.quot a b).

(** Conversions to the unsigned types used by the pixel arithmetic. *)
Definition u8 (z : Z) : Z := z mod 2 ^ 8.
Definition u32 (z : Z) : Z := z mod 2 ^ 32.

(** [int32], the representation of [fixed.Int26_6]. *)
Definition wrap32 (z : Z) : Z := (z + 2 ^ 31) mod 2 ^ 32 - 2 ^ 31.

End GoInt.

(** ** Errors and results

    A Go function of type [(T, error)] that returns either a value with a nil
    error or a zero value with an error is a value of [Err T]; the error is
    kept as its [Error()] text. *)

Definition error : Type := string.

Inductive Err (A : Type) : Type :=
| Failed (e : error)
| Ok (a : A).
Arguments Failed {A} e.
Arguments Ok {A} a.

(** The two components of the Go result: the value (nil on failure) and the
    error (nil on success). *)
Definition value_of {A} (r : Err A) : option A :=
  match r with Failed _ => None | Ok a => Some a end.

Definition error_of {A} (r : Err A) : option error :=
  match r with Failed e => Some e | Ok _ => None end.

(** A call that may panic (an index out of range). *)
Inductive MayPanic (A : Type) : Type :=
| Panicked
| Returned (a : A).
Arguments Panicked {A}.
Arguments Returned {A} a.

(** ** Package [strconv] *)

Module strconv.

Definition digit_of (c : ascii) : option Z :=
  let n := Z.of_N (N_of_ascii c) in
  if (48 <=? n) && (n <=? 57) then Some (n - 48) else None.

(** The decimal value of a string of digits; [None] on any other byte. *)
Fixpoint digits (acc : Z) (s : string) : option Z :=
  match s with
  | EmptyString => Some acc
  | String c s' =>
      match digit_of c with
      | Some d => digits (acc * 10 + d) s'
      | None => None
      end
  end.

(** [strconv.Atoi]: base 10, an optional sign, at least one digit, nothing
    else, and a value that fits an [int]. [None] stands for the syntax and
    range errors, whose text [main.go] never reads. *)
Definition Atoi (s : string) : option Z :=
  match s with
  | EmptyString => None
  | String c rest =>
      let neg := Ascii.eqb c "-" in
      let body := if neg || Ascii.eqb c "+" then rest else s in
      match body with
      | EmptyString => None
      | _ =>
          match digits 0 body with
          | None => None
          | Some n =>
              let v := if neg then - n else n in
              if (GoInt.min_int <=? v) && (v <=? GoInt.max_int)
              then Some v else None
          end
      end
  end.

(** [strconv.Itoa]: the decimal text of an [int]. *)
Definition Itoa (i : Z) : string := NilZero.string_of_int (Z.to_int i).

End strconv.

(** ** Package [image]: points, rectangles, colours, images *)

Module image.

Record Point : Type := Pt { X : Z; Y : Z }.

Record Rectangle : Type := Rect { Min : Point; Max : Point }.

Definition ZP : Point := Pt 0 0.
Definition ZR : Rectangle := Rect ZP ZP.

(** [Point.Add], [Point.Sub], [Point.Div]. *)
Definition Point_Add (p q : Point) : Point :=
  Pt (GoInt.add (X p) (X q)) (GoInt.add (Y p) (Y q)).

Definition Point_Sub (p q : Point) : Point :=
  Pt (GoInt.sub (X p) (X q)) (GoInt.sub (Y p) (Y q)).

Definition Point_Div (p : Point) (k : Z) : Point :=
  Pt (GoInt.div (X p) k) (GoInt.div (Y p) k).

(** [Rectangle.Dx], [Rectangle.Dy], [Rectangle.Size]. *)
Definition Dx (r : Rectangle) : Z := GoInt.sub (X (Max r)) (X (Min r)).
Definition Dy (r : Rectangle) : Z := GoInt.sub (Y (Max r)) (Y (Min r)).
Definition Size (r : Rectangle) : Point := Pt (Dx r) (Dy r).

(** [Rectangle.Add]: the rectangle translated by [p]. *)
Definition Add (r : Rectangle) (p : Point) : Rectangle :=
  Rect (Point_Add (Min r) p) (Point_Add (Max r) p).

(** [Rectangle.Empty]. *)
Definition Empty (r : Rectangle) : bool :=
  (X (Min r) >=? X (Max r)) || (Y (Min r) >=? Y (Max r)).

(** [Rectangle.Intersect]. *)
Definition Intersect (r s : Rectangle) : Rectangle :=
  let minx := if X (Min r) <? X (Min s) then X (Min s) else X (Min r) in
  let miny := if Y (Min r) <? Y (Min s) then Y (Min s) else Y (Min r) in
  let maxx := if X (Max r) >? X (Max s) then X (Max s) else X (Max r) in
  let maxy := if Y (Max r) >? Y (Max s) then Y (Max s) else Y (Max r) in
  let r' := Rect (Pt minx miny) (Pt maxx maxy) in
  if Empty r' then ZR else r'.

(** [Point.In]. *)
Definition In (p : Point) (r : Rectangle) : bool :=
  (X (Min r) <=? X p) && (X p <? X (Max r)) &&
  (Y (Min r) <=? Y p) && (Y p <? Y (Max r)).

(** What [color.Color.RGBA()] returns: alpha-premultiplied 16 bit
    channels. *)
Record RGBA64 : Type := Color16 { R16 : Z; G16 : Z; B16 : Z; A16 : Z }.

(** [color.RGBA]: the 8 bit alpha-premultiplied pixel of an [image.RGBA]. *)
Record RGBA8 : Type := Color8 { R8 : Z; G8 : Z; B8 : Z; A8 : Z }.

(** [color.Transparent] and [color.White] through [RGBA()]. *)
Definition Transparent : RGBA64 := Color16 0 0 0 0.
Definition White : RGBA64 := Color16 65535 65535 65535 65535.

(** The interface [image.Image]: bounds and the colour at a point, taken
    through [RGBA()]. *)
Record Image : Type := MkImage {
  Bounds : Rectangle;
  At : Z -> Z -> RGBA64
}.

(** [image.Uniform]: an unbounded image of one colour. *)
Definition Uniform (c : RGBA64) : Image :=
  MkImage (Rect (Pt (-1000000000) (-1000000000)) (Pt 1000000000 1000000000))
          (fun _ _ => c).

(** [image.RGBA] (used through a pointer): the pixels, addressed by their coordinates, and the
    rectangle of the image. Drawing writes [Pix] and never [RGBA_Rect]. *)
Record RGBA : Type := MkRGBA {
  Pix : Z -> Z -> RGBA8;
  RGBA_Rect : Rectangle
}.

(** The method [Bounds] of an [image.RGBA]. *)
Definition RGBA_Bounds (m : RGBA) : Rectangle := RGBA_Rect m.

(** [image.NewRGBA]: every pixel zero. *)
Definition NewRGBA (r : Rectangle) : RGBA :=
  MkRGBA (fun _ _ => Color8 0 0 0 0) r.

End image.

(** ** Package [image/draw] *)

Module draw.
Import image.

Inductive Op : Type := Over | Src.

(** The constant [m = 1<<16 - 1] of [draw.go]. *)
Definition m : Z := 65535.

(** One channel of a destination pixel after [Over], as [drawRGBA]
    computes it in [uint32]: [a := (m - (sa * ma / m)) * 0x101] and
    [uint8((d*a + s*ma) / m >> 8)]. *)
Definition over_channel (d s sa ma : Z) : Z :=
  let a := GoInt.u32 (GoInt.u32 (m - GoInt.u32 (sa * ma) / m) * 257) in
  GoInt.u8 (Z.shiftr (GoInt.u32 (GoInt.u32 (d * a) + GoInt.u32 (s * ma)) / m) 8).

(** One channel after [Src]: [uint8(s * ma / m >> 8)]. *)
Definition src_channel (s ma : Z) : Z :=
  GoInt.u8 (Z.shiftr (GoInt.u32 (s * ma) / m) 8).

(** The destination pixel [d] after drawing the source colour [s] through
    a mask of alpha [ma]. *)
Definition blend (op : Op) (d : RGBA8) (s : RGBA64) (ma : Z) : RGBA8 :=
  match op with
  | Over =>
      Color8 (over_channel (R8 d) (R16 s) (A16 s) ma)
             (over_channel (G8 d) (G16 s) (A16 s) ma)
             (over_channel (B8 d) (B16 s) (A16 s) ma)
             (over_channel (A8 d) (A16 s) (A16 s) ma)
  | Src =>
      Color8 (src_channel (R16 s) ma) (src_channel (G16 s) ma)
             (src_channel (B16 s) ma) (src_channel (A16 s) ma)
  end.

(** The rectangle that [clip] leaves of [r]: its part inside the
    destination, inside the source aligned at [sp] and inside the mask
    aligned at [mp]. *)
Definition clip (dstB r srcB : Rectangle) (sp : Point)
    (maskB : option Rectangle) (mp : Point) : Rectangle :=
  let orig := Min r in
  let r1 := Intersect r dstB in
  let r2 := Intersect r1 (Add srcB (Point_Sub orig sp)) in
  match maskB with
  | Some mb => Intersect r2 (Add mb (Point_Sub orig mp))
  | None => r2
  end.

(** [draw.DrawMask] on an [image.RGBA] destination: [r.Min] in [dst] is
    aligned with [sp] in [src] and [mp] in [mask]; every pixel of the
    clipped rectangle is blended, every other pixel is left as it is. *)
Definition DrawMask (dst : RGBA) (r : Rectangle) (src : Image) (sp : Point)
    (mask : option Image) (mp : Point) (op : Op) : RGBA :=
  let orig := Min r in
  let rc := clip (RGBA_Bounds dst) r (Bounds src) sp (Bounds <$> mask) mp in
  if Empty rc then dst
  else
    MkRGBA
      (fun x y =>
         if In (Pt x y) rc then
           let dx := GoInt.sub x (X orig) in
           let dy := GoInt.sub y (Y orig) in
           let s := At src (GoInt.add (X sp) dx) (GoInt.add (Y sp) dy) in
           let ma := match mask with
                     | Some mk =>
                         A16 (At mk (GoInt.add (X mp) dx) (GoInt.add (Y mp) dy))
                     | None => m
                     end in
           blend op (Pix dst x y) s ma
         else Pix dst x y)
      (RGBA_Rect dst).

(** [draw.Draw] is [DrawMask] with a nil mask. *)
Definition Draw (dst : RGBA) (r : Rectangle) (src : Image) (sp : Point)
    (op : Op) : RGBA :=
  DrawMask dst r src sp None ZP op.

End draw.

(** ** Package [golang.org/x/image/math/fixed] *)

Module fixed.

(** [Int26_6] is an [int32] holding a number of 64ths. *)
Definition Int26_6 : Type := Z.

Record Point26_6 : Type := Pt26 { X : Int26_6; Y : Int26_6 }.

(** [fixed.P(x, y)]: [Int26_6(x << 6)] on both coordinates. *)
Definition P (x y : Z) : Point26_6 :=
  Pt26 (GoInt.wrap32 (Z.shiftl x 6)) (GoInt.wrap32 (Z.shiftl y 6)).

Definition add (a b : Int26_6) : Int26_6 := GoInt.wrap32 (a + b).

(** [Round] is [int((x + 0x20) >> 6)], [Ceil] is [int((x + 0x3f) >> 6)]. *)
Definition Round (x : Int26_6) : Z := Z.shiftr (GoInt.wrap32 (x + 32)) 6.
Definition Ceil (x : Int26_6) : Z := Z.shiftr (GoInt.wrap32 (x + 63)) 6.

End fixed.

(** ** Package [golang.org/x/image/font] *)

Module font.
Import image.

Definition rune : Type := Z.

Definition RuneError : rune := 65533.

Definition byte_of (c : ascii) : Z := Z.of_N (N_of_ascii c).

Definition cont (b : Z) : bool := (128 <=? b) && (b <=? 191).

(** Length of the UTF-8 sequence that the byte [b0 >= 0x80] starts; 0 for
    a byte that starts none. *)
Definition seq_len (b0 : Z) : Z :=
  if (194 <=? b0) && (b0 <=? 223) then 2
  else if (224 <=? b0) && (b0 <=? 239) then 3
  else if (240 <=? b0) && (b0 <=? 244) then 4
  else 0.

(** The range accepted for the second byte after [b0]. *)
Definition second_ok (b0 b1 : Z) : bool :=
  if b0 =? 224 then (160 <=? b1) && (b1 <=? 191)
  else if b0 =? 237 then (128 <=? b1) && (b1 <=? 159)
  else if b0 =? 240 then (144 <=? b1) && (b1 <=? 191)
  else if b0 =? 244 then (128 <=? b1) && (b1 <=? 143)
  else cont b1.

(** The runes that [for _, c := range s] yields: UTF-8 decoding, with
    [RuneError] for each byte that starts no valid sequence. *)
Fixpoint runes (s : string) : list rune :=
  match s with
  | EmptyString => []
  | String c0 s1 =>
      let b0 := byte_of c0 in
      if b0 <? 128 then b0 :: runes s1
      else
        let bad := RuneError :: runes s1 in
        let n := seq_len b0 in
        match s1 with
        | String c1 s2 =>
            let b1 := byte_of c1 in
            if (n =? 0) || negb (second_ok b0 b1) then bad
            else if n =? 2 then
              Z.lor (Z.shiftl (Z.land b0 31) 6) (Z.land b1 63) :: runes s2
            else
              match s2 with
              | String c2 s3 =>
                  let b2 := byte_of c2 in
                  if negb (cont b2) then bad
                  else if n =? 3 then
                    Z.lor (Z.shiftl (Z.land b0 15) 12)
                      (Z.lor (Z.shiftl (Z.land b1 63) 6) (Z.land b2 63))
                    :: runes s3
                  else
                    match s3 with
                    | String c3 s4 =>
                        let b3 := byte_of c3 in
                        if negb (cont b3) then bad
                        else
                          Z.lor (Z.shiftl (Z.land b0 7) 18)
                            (Z.lor (Z.shiftl (Z.land b1 63) 12)
                               (Z.lor (Z.shiftl (Z.land b2 63) 6)
                                  (Z.land b3 63)))
                          :: runes s4
                    | EmptyString => bad
                    end
              | EmptyString => bad
              end
        | EmptyString => bad
        end
  end.

(** What [Face.Glyph] returns for a drawable rune: the destination
    rectangle, the alpha mask with the point of it that goes to the
    rectangle's corner, and the advance. *)
Record Glyph : Type := MkGlyph {
  dr : Rectangle;
  mask : Image;
  maskp : Point;
  advance : fixed.Int26_6
}.

(** The interface [font.Face], as far as [main.go] and [font.Drawer] use
    it. [None] is [ok = false]. *)
Record Face : Type := MkFace {
  Face_Glyph : fixed.Point26_6 -> rune -> option Glyph;
  GlyphAdvance : rune -> option fixed.Int26_6;
  Kern : rune -> rune -> fixed.Int26_6;
  Ascent : fixed.Int26_6
}.

(** The loop of [font.MeasureString]. *)
Fixpoint MeasureRunes (f : Face) (prevC : rune) (adv : fixed.Int26_6)
    (cs : list rune) : fixed.Int26_6 :=
  match cs with
  | [] => adv
  | c :: cs' =>
      let adv := if prevC >=? 0 then fixed.add adv (Kern f prevC c) else adv in
      match GlyphAdvance f c with
      | None => MeasureRunes f prevC adv cs'
      | Some a => MeasureRunes f c (fixed.add adv a) cs'
      end
  end.

Definition MeasureString (f : Face) (s : string) : fixed.Int26_6 :=
  MeasureRunes f (-1) 0 (runes s).

(** The loop of [Drawer.DrawString]: kerning, then the glyph of the rune at
    the dot drawn through its mask with [draw.Over], then the advance. *)
Fixpoint DrawRunes (f : Face) (src : Image) (dst : RGBA)
    (dot : fixed.Point26_6) (prevC : rune) (cs : list rune) : RGBA :=
  match cs with
  | [] => dst
  | c :: cs' =>
      let dot :=
        if prevC >=? 0
        then fixed.Pt26 (fixed.add (fixed.X dot) (Kern f prevC c)) (fixed.Y dot)
        else dot in
      match Face_Glyph f dot c with
      | None => DrawRunes f src dst dot prevC cs'
      | Some g =>
          let dst' :=
            draw.DrawMask dst (dr g) src ZP (Some (mask g)) (maskp g) draw.Over in
          let dot' :=
            fixed.Pt26 (fixed.add (fixed.X dot) (advance g)) (fixed.Y dot) in
          DrawRunes f src dst' dot' c cs'
      end
  end.

(** The rectangles that the loop of [DrawString] hands to [draw.DrawMask],
    in order. *)
Fixpoint glyph_rects (f : Face) (dot : fixed.Point26_6) (prevC : rune)
    (cs : list rune) : list Rectangle :=
  match cs with
  | [] => []
  | c :: cs' =>
      let dot :=
        if prevC >=? 0
        then fixed.Pt26 (fixed.add (fixed.X dot) (Kern f prevC c)) (fixed.Y dot)
        else dot in
      match Face_Glyph f dot c with
      | None => glyph_rects f dot prevC cs'
      | Some g =>
          let dot' :=
            fixed.Pt26 (fixed.add (fixed.X dot) (advance g)) (fixed.Y dot) in
          dr g :: glyph_rects f dot' c cs'
      end
  end.

(** [(&font.Drawer{Dst, Src, Face, Dot}).DrawString(s)]. *)
Definition DrawString (dst : RGBA) (src : Image) (f : Face)
    (dot : fixed.Point26_6) (s : string) : RGBA :=
  DrawRunes f src dst dot (-1) (runes s).

End font.

(** ** Package [net/http] and [net/url] *)

Module http.

(** [url.Values] is [map[string][]string]; [Values.Get] is the first value
    of the key, or the empty string. *)
Definition Get (v : gmap string (list string)) (key : string) : string :=
  match v !! key with
  | Some (x :: _) => x
  | _ => ""
  end.

(** The part of [*http.Request] that the handler reads: the method and
    [r.URL.Query()]. *)
Record Request : Type := MkRequest {
  Method : string;
  Query : gmap string (list string)
}.

(** The state of an [http.ResponseWriter]: the headers of the response,
    the status once it is written, the body written so far. Headers set
    after the status is written are not part of the response. *)
Record ResponseWriter : Type := MkWriter {
  Header : gmap string string;
  Status : option Z;
  Body : string
}.

Definition fresh : ResponseWriter := MkWriter ∅ None "".

Definition StatusOK : Z := 200.
Definition StatusBadRequest : Z := 400.
Definition StatusMethodNotAllowed : Z := 405.
Definition StatusInternalServerError : Z := 500.

(** [w.Header().Set(k, v)]. *)
Definition Header_Set (k v : string) (w : ResponseWriter) : ResponseWriter :=
  match Status w with
  | Some _ => w
  | None => MkWriter (<[k:=v]> (Header w)) None (Body w)
  end.

(** [w.WriteHeader(code)]: only the first call counts. *)
Definition WriteHeader (code : Z) (w : ResponseWriter) : ResponseWriter :=
  match Status w with
  | Some _ => w
  | None => MkWriter (Header w) (Some code) (Body w)
  end.

(** [w.Write(data)]: the first write sends the status 200 when none was
    written. *)
Definition Write (w : ResponseWriter) (data : string) : ResponseWriter :=
  let w := WriteHeader StatusOK w in
  MkWriter (Header w) (Status w) (Body w +:+ data).

Definition newline : string := String (ascii_of_nat 10) EmptyString.

(** [http.Error(w, error, code)]. *)
Definition Error (w : ResponseWriter) (msg : string) (code : Z)
    : ResponseWriter :=
  let w := Header_Set "Content-Type" "text/plain; charset=utf-8" w in
  let w := Header_Set "X-Content-Type-Options" "nosniff" w in
  let w := WriteHeader code w in
  Write w (msg +:+ newline).

(** The status of the response once the handler has returned: 200 when the
    handler wrote none. *)
Definition StatusCode (w : ResponseWriter) : Z :=
  match Status w with
  | Some c => c
  | None => StatusOK
  end.

End http.

(** ** The host: file system, decoders, encoder

    [main.go] reads fonts and images from the file system and hands them to
    [opentype], [image] and [png]. What these return is not fixed by the
    program; a [Host] gives the result of each such call. *)

Inductive Hinting : Type := HintingNone | HintingVertical | HintingFull.

(** [opentype.FaceOptions]; the [float64] sizes that [main.go] passes (18,
    24, and 72 for the DPI) are integers. *)
Record FaceOptions : Type := MkFaceOptions {
  opt_Size : Z;
  opt_DPI : Z;
  opt_Hinting : Hinting
}.

(** A parsed font and an open file, known by their bytes. *)
Record Font : Type := MkFont { font_bytes : string }.
Record File : Type := MkFile { file_bytes : string }.

Record Host : Type := MkHost {
  ioutil_ReadFile : string -> Err string;
  opentype_Parse : string -> Err Font;
  opentype_NewFace : Font -> FaceOptions -> Err font.Face;
  os_Open : string -> Err File;
  image_Decode : File -> Err image.Image;
  (** [png.Encode(w, img)]: the chunks written to [w], in order, and the
      error returned. *)
  png_Encode : image.RGBA -> list string * option error
}.

(** ** Effects

    The calls that reach outside the program or write the canvas, in the
    order they are made and with their arguments: files read and opened,
    images drawn on a destination, strings drawn on a destination. *)

Inductive Event : Type :=
| EvReadFile (path : string)
| EvOpen (path : string)
| EvDraw (dst : image.RGBA) (r : image.Rectangle) (src : image.Image)
    (sp : image.Point) (op : draw.Op)
| EvDrawString (dst : image.RGBA) (face : font.Face) (dot : fixed.Point26_6)
    (text : string) (col : image.RGBA64).

(** A computation that logs its calls and stops at the first error. *)
Record IO (A : Type) : Type := MkIO {
  trace : list Event;
  outcome : Err A
}.
Arguments MkIO {A} trace outcome.
Arguments trace {A} i.
Arguments outcome {A} i.

#[global] Instance IO_ret : MRet IO := fun A a => MkIO [] (Ok a).

#[global] Instance IO_bind : MBind IO := fun A B f c =>
  match outcome c with
  | Failed e => MkIO (trace c) (Failed e)
  | Ok a => MkIO (trace c ++ trace (f a)) (outcome (f a))
  end.

(** A library call: one event and its result. *)
Definition call {A} (ev : Event) (r : Err A) : IO A := MkIO [ev] r.

(** A library computation without effect. *)
Definition pure {A} (r : Err A) : IO A := MkIO [] r.

(** [draw.Draw] and [Drawer.DrawString] as calls: the destination after the
    call is the result. *)
Definition draw_Draw (dst : image.RGBA) (r : image.Rectangle)
    (src : image.Image) (sp : image.Point) (op : draw.Op) : IO image.RGBA :=
  call (EvDraw dst r src sp op) (Ok (draw.Draw dst r src sp op)).

Definition Drawer_DrawString (dst : image.RGBA) (src : image.Image)
    (face : font.Face) (dot : fixed.Point26_6) (text : string)
    (col : image.RGBA64) : IO image.RGBA :=
  call (EvDrawString dst face dot text col)
       (Ok (font.DrawString dst src face dot text)).

(** ** The program: [main.go] *)

Import image.

Record CharacterPortrait : Type := MkPortrait {
  portrait_Character : string;
  GearLevel : Z;
  RelicLevel : Z;
  Zetas : Z;
  Omicrons : Z
}.

Record Character : Type := MkCharacter {
  Name : string;
  Affiliation : string;
  imgSrc : string;
  maxZetas : Z;
  maxOmicrons : Z
}.

(** List of supported characters. *)
Definition supportedCharacters : gmap string Character :=
  {[ "darth_vader" :=
       {| Name := "Darth Vader";
          Affiliation := "dark_side";
          imgSrc := "darth_vader.png";
          maxZetas := 3;
          maxOmicrons := 1 |} ]}.

(** Load the Inter font. *)
Definition loadFont (host : Host) (path : string) (size : Z) : IO font.Face :=
  fontBytes ← call (EvReadFile path) (ioutil_ReadFile host path);
  fontType ← pure (opentype_Parse host fontBytes);
  face ← pure (opentype_NewFace host fontType
                 {| opt_Size := size; opt_DPI := 72; opt_Hinting := HintingFull |});
  mret face.

(** Draw text onto an image at a specified position. *)
Definition drawText (img : RGBA) (face : font.Face) (x y : Z) (text : string)
    (col : RGBA64) : IO RGBA :=
  let point := fixed.P x y in
  Drawer_DrawString img (Uniform col) face point text col.

(** [getIntFromQuery] returns the integer value and an error if the
    conversion fails; a missing or empty parameter gives 0 and no error.
    Indexing the values of a key that has none panics; the values that
    [r.URL.Query()] gives to a key are never empty, so no request gets
    there. *)
Definition getIntFromQuery (query : gmap string (list string)) (key : string)
    : MayPanic (Z * option error) :=
  match query !! key with
  | None => Returned (0, None)
  | Some [] => Panicked
  | Some (v0 :: _) =>
      if (String.length v0 =? 0)%nat then Returned (0, None)
      else
        match strconv.Atoi v0 with
        | None =>
            Returned (0, Some ("parameter '" +:+ key +:+
                               "' should be an integer, got '" +:+ v0 +:+ "'"))
        | Some value => Returned (value, None)
        end
  end.

(** [loadImage] reads an image from the file with the given path and decodes
    it. *)
Definition loadImage (host : Host) (filePath : string) : IO Image :=
  file ← call (EvOpen filePath) (os_Open host filePath);
  img ← pure (image_Decode host file);
  mret img.

(** The local [offset] of [placeImageOnCanvas]: the centering formula. *)
Definition placeImageOnCanvas_offset (src : Image) : Point :=
  let canvasSize := Pt 200 200 in
  let srcBounds := Bounds src in
  let srcSize := Size srcBounds in
  Point_Div (Point_Sub canvasSize srcSize) 2.

(** [placeImageOnCanvas] centers an image onto a 200x200 canvas. *)
Definition placeImageOnCanvas (src : Image) : IO RGBA :=
  let canvasSize := Pt 200 200 in
  let canvasRect := Rect (Pt 0 0) canvasSize in
  let canvas := NewRGBA canvasRect in
  let clearColor := Transparent in
  canvas ← draw_Draw canvas (RGBA_Bounds canvas) (Uniform clearColor) ZP draw.Src;
  let srcBounds := Bounds src in
  let offset := placeImageOnCanvas_offset src in
  let drawPoint := Pt (X offset) (Y offset) in
  canvas ← draw_Draw canvas (Add srcBounds drawPoint) src (Min srcBounds) draw.Over;
  mret canvas.

(** The local [offset] of [centerImageOnCanvas]. *)
Definition centerImageOnCanvas_offset (src : Image) (dest : RGBA) : Point :=
  let srcBounds := Bounds src in
  let destBounds := RGBA_Bounds dest in
  let srcSize := Size srcBounds in
  let destSize := Size destBounds in
  Pt (GoInt.div (GoInt.sub (X destSize) (X srcSize)) 2)
     (GoInt.div (GoInt.sub (Y destSize) (Y srcSize)) 2).

Definition centerImageOnCanvas (src : Image) (dest : RGBA) : IO RGBA :=
  let srcBounds := Bounds src in
  let offset := centerImageOnCanvas_offset src dest in
  let drawPoint := Pt (X offset) (Y offset) in
  draw_Draw dest (Add srcBounds drawPoint) src (Min srcBounds) draw.Over.

(** The text positions computed at the top of [buildPortrait]: the text is
    centered in a badge at [pos] of size [size], its baseline [nudge] pixels
    above the middle of badge height plus ascent. *)
Definition textPosition (pos size : Point) (face : font.Face) (text : string)
    (nudge : Z) : Point :=
  let textWidth := fixed.Round (font.MeasureString face text) in
  Pt (GoInt.add (X pos) (GoInt.div (GoInt.sub (X size) textWidth) 2))
     (GoInt.sub
        (GoInt.add (Y pos)
           (GoInt.div (GoInt.add (Y size) (fixed.Ceil (font.Ascent face))) 2))
        nudge).

Definition fontPath : string := "assets/fonts/Inter-Regular.ttf".

Definition buildPortrait (host : Host) (portrait : CharacterPortrait)
    (charData : Character) : IO RGBA :=
  interFontFaceSmall ← loadFont host fontPath 18;
  interFontFaceLarge ← loadFont host fontPath 24;

  let zetaBadgePosition := Pt 18 100 in
  let zetaBadgeSize := Pt 60 60 in
  let omicronBadgePosition := Pt 121 100 in
  let omicronBadgeSize := Pt 60 60 in
  let levelBadgePosition := Pt 75 128 in
  let levelBadgeSize := Pt 50 44 in

  (* Calculate text drawing positions *)
  let zetaText := strconv.Itoa (Zetas portrait) in
  let zetaTextPosition :=
    textPosition zetaBadgePosition zetaBadgeSize interFontFaceSmall zetaText 4 in
  let omicronText := strconv.Itoa (Omicrons portrait) in
  let omicronTextPosition :=
    textPosition omicronBadgePosition omicronBadgeSize interFontFaceSmall
      omicronText 4 in
  let levelText := "85" in
  let levelTextPosition :=
    textPosition levelBadgePosition levelBadgeSize interFontFaceLarge levelText 5 in

  (* Load and center the character image on a 200x200 canvas *)
  characterImg ← loadImage host ("assets/characters/" +:+ imgSrc charData);
  finalImage ← placeImageOnCanvas characterImg;

  (* Add gear or relic border based on GearLevel *)
  finalImage ←
    (if GearLevel portrait <? 13 then
       borderImg ← loadImage host
         ("assets/gear/" +:+ strconv.Itoa (GearLevel portrait) +:+ ".png");
       centerImageOnCanvas borderImg finalImage
     else
       relicBorderImg ← loadImage host
         ("assets/relics/" +:+ Affiliation charData +:+ ".png");
       draw_Draw finalImage (RGBA_Bounds finalImage) relicBorderImg ZP draw.Over);

  (* Add character level badge and level number text *)
  levelBadgeImg ← loadImage host "assets/badges/level.png";
  finalImage ← draw_Draw finalImage (Add (Bounds levelBadgeImg) levelBadgePosition)
                 levelBadgeImg ZP draw.Over;
  finalImage ← drawText finalImage interFontFaceLarge (X levelTextPosition)
                 (Y levelTextPosition) levelText White;

  (* Conditionally add zeta badge *)
  finalImage ←
    (if Zetas portrait >? 0 then
       zetaBadgeImg ← loadImage host "assets/badges/zeta.png";
       finalImage ← draw_Draw finalImage
                      (Add (Bounds zetaBadgeImg) zetaBadgePosition)
                      zetaBadgeImg ZP draw.Over;
       drawText finalImage interFontFaceSmall (X zetaTextPosition)
         (Y zetaTextPosition) zetaText White
     else mret finalImage);

  (* Conditionally add omicron badge *)
  finalImage ←
    (if Omicrons portrait >? 0 then
       omicronBadgeImg ← loadImage host "assets/badges/omicron.png";
       finalImage ← draw_Draw finalImage
                      (Add (Bounds omicronBadgeImg) omicronBadgePosition)
                      omicronBadgeImg ZP draw.Over;
       drawText finalImage interFontFaceSmall (X omicronTextPosition)
         (Y omicronTextPosition) omicronText White
     else mret finalImage);

  (* Return the composed final image *)
  mret finalImage.

(** What a run of the handler leaves: the calls made, and the response
    writer, unless the handler panicked. *)
Definition Served : Type := (list Event * MayPanic http.ResponseWriter)%type.

Definition reply (w : http.ResponseWriter) : Served := ([], Returned w).

Definition not_nil (err : option error) : bool :=
  match err with Some _ => true | None => false end.

(** The end of [createPortraitHandler]: the portrait is built and encoded as
    [image/png]; a failure of the builder or of the encoder is reported with
    [http.Error]. *)
Definition servePortrait (host : Host) (w : http.ResponseWriter)
    (portrait : CharacterPortrait) (char : Character) : Served :=
  let built := buildPortrait host portrait char in
  match outcome built with
  | Failed err =>
      (trace built,
       Returned (http.Error w ("Failed to create portrait: " +:+ err)
                   http.StatusInternalServerError))
  | Ok img =>
      let w := http.Header_Set "Content-Type" "image/png" w in
      let '(chunks, err) := png_Encode host img in
      let w := fold_left http.Write chunks w in
      match err with
      | Some err =>
          (trace built,
           Returned (http.Error w ("Failed to encode image: " +:+ err)
                       http.StatusInternalServerError))
      | None => (trace built, Returned w)
      end
  end.

Definition createPortraitHandler (host : Host) (w : http.ResponseWriter)
    (r : http.Request) : Served :=
  if negb (String.eqb (http.Method r) "GET") then
    reply (http.Error w "Only GET method is allowed" http.StatusMethodNotAllowed)
  else
  let query := http.Query r in
  let charID := http.Get query "char" in
  match supportedCharacters !! charID with
  | None =>
      reply (http.Error w
               ("Character '" +:+ charID +:+ "' is not supported by this API")
               http.StatusBadRequest)
  | Some char =>
  match getIntFromQuery query "gear_level" with
  | Panicked => ([], Panicked)
  | Returned (gearLevel, err) =>
  if not_nil err || (gearLevel <? 1) || (gearLevel >? 13) then
    reply (http.Error w "The gear_level must be between 1 and 13"
             http.StatusBadRequest)
  else
  match getIntFromQuery query "relic_level" with
  | Panicked => ([], Panicked)
  | Returned (relicLevel, err) =>
  if negb (gearLevel =? 13) && negb (relicLevel =? 0) && negb (not_nil err) then
    reply (http.Error w
             "The relic_level should not be provided if gear_level is not 13"
             http.StatusBadRequest)
  else
  if (gearLevel =? 13) && ((relicLevel <? 1) || (relicLevel >? 9)) then
    reply (http.Error w "The relic_level must be between 1 and 9"
             http.StatusBadRequest)
  else
  match getIntFromQuery query "zetas" with
  | Panicked => ([], Panicked)
  | Returned (zetas, _) =>
  if (zetas <? 0) || (zetas >? maxZetas char) then
    reply (http.Error w
             ("The zeta level must be between 0 and " +:+
              strconv.Itoa (maxZetas char) +:+ " for " +:+ Name char)
             http.StatusBadRequest)
  else
  match getIntFromQuery query "omicrons" with
  | Panicked => ([], Panicked)
  | Returned (omicrons, _) =>
  if (omicrons <? 0) || (omicrons >? maxOmicrons char) then
    reply (http.Error w
             ("The omicron level must be between 0 and " +:+
              strconv.Itoa (maxOmicrons char) +:+ " for " +:+ Name char)
             http.StatusBadRequest)
  else
  let portrait :=
    {| portrait_Character := charID;
       GearLevel := gearLevel;
       RelicLevel := relicLevel;
       Zetas := zetas;
       Omicrons := omicrons |} in
  servePortrait host w portrait char
  end end end end end.

(** ** A concrete host

    A file system with the font and the images of one character, used to run
    the program on concrete requests. Images are flat colours; the face has
    one box-shaped glyph for every rune. *)

Module Demo.

Definition flat (w h : Z) (c : RGBA64) : Image :=
  MkImage (Rect (Pt 0 0) (Pt w h)) (fun _ _ => c).

Definition red : RGBA64 := Color16 65535 0 0 65535.
Definition green : RGBA64 := Color16 0 65535 0 65535.
Definition blue : RGBA64 := Color16 0 0 65535 65535.
Definition grey : RGBA64 := Color16 32768 32768 32768 65535.

(** A face of the given size: every glyph is an opaque box [size/2] wide and
    [size] high standing on the baseline. *)
Definition boxFace (size : Z) : font.Face :=
  font.MkFace
    (fun dot _ =>
       let x := Z.shiftr (fixed.X dot) 6 in
       let y := Z.shiftr (fixed.Y dot) 6 in
       Some (font.MkGlyph (Rect (Pt x (y - size)) (Pt (x + size / 2) y))
               (flat (size / 2) size White) ZP (size * 32)))
    (fun _ => Some (size * 32))
    (fun _ _ => 0)
    (size * 64).

Definition noSuchFile (path : string) : error :=
  "open " +:+ path +:+ ": no such file or directory".

(** The decoded images, by path; [zeta] is the zeta badge. *)
Definition images (zeta : Image) (path : string) : option Image :=
  if String.eqb path "assets/characters/darth_vader.png" then Some (flat 128 128 grey)
  else if String.eqb path "assets/gear/12.png" then Some (flat 200 200 Transparent)
  else if String.eqb path "assets/gear/1.png" then Some (flat 180 170 Transparent)
  else if String.eqb path "assets/relics/dark_side.png" then Some (flat 200 200 Transparent)
  else if String.eqb path "assets/badges/level.png" then Some (flat 50 44 blue)
  else if String.eqb path "assets/badges/zeta.png" then Some zeta
  else if String.eqb path "assets/badges/omicron.png" then Some (flat 60 60 green)
  else None.

Definition hostWith (zeta : Image) : Host :=
  {| ioutil_ReadFile := fun path =>
       if String.eqb path fontPath then Ok "font" else Failed (noSuchFile path);
     opentype_Parse := fun bytes => Ok (MkFont bytes);
     opentype_NewFace := fun _ opts => Ok (boxFace (opt_Size opts));
     os_Open := fun path =>
       match images zeta path with
       | Some _ => Ok (MkFile path)
       | None => Failed (noSuchFile path)
       end;
     image_Decode := fun file =>
       match images zeta (file_bytes file) with
       | Some img => Ok img
       | None => Failed "image: unknown format"
       end;
     png_Encode := fun _ => (["PNG"], None) |}.

(** The host [h] without the file [missing]. *)
Definition without (missing : string) (h : Host) : Host :=
  {| ioutil_ReadFile := fun path =>
       if String.eqb path missing then Failed (noSuchFile path)
       else ioutil_ReadFile h path;
     opentype_Parse := opentype_Parse h;
     opentype_NewFace := opentype_NewFace h;
     os_Open := fun path =>
       if String.eqb path missing then Failed (noSuchFile path)
       else os_Open h path;
     image_Decode := image_Decode h;
     png_Encode := png_Encode h |}.

(** The host [h] with an encoder that fails after writing [chunks]. *)
Definition failingEncoder (chunks : list string) (h : Host) : Host :=
  {| ioutil_ReadFile := ioutil_ReadFile h;
     opentype_Parse := opentype_Parse h;
     opentype_NewFace := opentype_NewFace h;
     os_Open := os_Open h;
     image_Decode := image_Decode h;
     png_Encode := fun _ => (chunks, Some "write: broken pipe") |}.

(** A host whose zeta badge is 60x60, and one whose zeta badge is 100x100. *)
Definition host : Host := hostWith (flat 60 60 red).
Definition wideHost : Host := hostWith (flat 100 100 red).

Definition darth_vader : Character :=
  {| Name := "Darth Vader";
     Affiliation := "dark_side";
     imgSrc := "darth_vader.png";
     maxZetas := 3;
     maxOmicrons := 1 |}.

(** The query [char=darth_vader&gear_level=g] with further parameters. *)
Definition query (g : string) (more : list (string * list string))
    : gmap string (list string) :=
  list_to_map (("char", ["darth_vader"]) :: ("gear_level", [g]) :: more).

Definition get (q : gmap string (list string)) : http.Request :=
  http.MkRequest "GET" q.

End Demo.

(** ** How a query gives a numeric parameter *)

(** The first value of [key] in the query is [v]. *)
Definition first_value (q : gmap string (list string)) (key v : string) : Prop :=
  exists rest, q !! key = Some (v :: rest).

(** The parameter is present and its first value is the decimal text of [n]. *)
Definition parses_to (q : gmap string (list string)) (key : string) (n : Z)
    : Prop :=
  exists v, first_value q key v /\ strconv.Atoi v = Some n.

(** The parameter is present, not empty, and [strconv.Atoi] rejects it: it is
    not a decimal integer, or one that does not fit an [int]. *)
Definition non_numeric (q : gmap string (list string)) (key : string) : Prop :=
  exists v, first_value q key v /\ v <> "" /\ strconv.Atoi v = None.

(** The parameter is absent or empty. *)
Definition absent_or_empty (q : gmap string (list string)) (key : string)
    : Prop :=
  q !! key = None \/ first_value q key "".

(** The gear and relic checks of the handler pass with gear level [g] and
    relic level [rl]. *)
Definition levels_accepted (q : gmap string (list string)) (g rl : Z) : Prop :=
  exists e,
    getIntFromQuery q "gear_level" = Returned (g, None) /\ 1 <= g <= 13 /\
    getIntFromQuery q "relic_level" = Returned (rl, e) /\
    (g <> 13 -> rl = 0 \/ e <> None) /\ (g = 13 -> 1 <= rl <= 9).

(** The status of the response that a run of the handler leaves; [None] when
    the handler panicked. *)
Definition served_status (s : Served) : option Z :=
  match snd s with
  | Returned w => Some (http.StatusCode w)
  | Panicked => None
  end.

(** The value that the handler uses for a lenient parameter ([zetas],
    [omicrons]): 0 when the parameter is absent, empty or not an integer, the
    integer otherwise. *)
Definition lenient_value (q : gmap string (list string)) (key : string) (n : Z)
    : Prop :=
  ((absent_or_empty q key \/ non_numeric q key) /\ n = 0) \/ parses_to q key n.

(** The canvas of every portrait. *)
Definition canvasRect : Rectangle := Rect (Pt 0 0) (Pt 200 200).

(** Every value that a computation returns satisfies [P]. *)
Definition returns {A} (c : IO A) (P : A -> Prop) : Prop :=
  forall a, outcome c = Ok a -> P a.

(** The loads of a build, as the specification lists them: the font at two
    sizes, the character image, the border (gear or relic), the level
    badge, then the zeta and omicron badges when their counts are
    positive. *)
Inductive Load : Type :=
| LoadFont (path : string) (size : Z)
| LoadImage (path : string).

Definition loads (portrait : CharacterPortrait) (charData : Character)
    : list Load :=
  [ LoadFont fontPath 18;
    LoadFont fontPath 24;
    LoadImage ("assets/characters/" +:+ imgSrc charData);
    LoadImage (if GearLevel portrait <? 13
               then "assets/gear/" +:+ strconv.Itoa (GearLevel portrait) +:+ ".png"
               else "assets/relics/" +:+ Affiliation charData +:+ ".png");
    LoadImage "assets/badges/level.png" ]
  ++ (if Zetas portrait >? 0 then [LoadImage "assets/badges/zeta.png"] else [])
  ++ (if Omicrons portrait >? 0 then [LoadImage "assets/badges/omicron.png"] else []).

(** The error of one load on a host, if it fails. *)
Definition attempt (host : Host) (l : Load) : option error :=
  match l with
  | LoadFont path size => error_of (outcome (loadFont host path size))
  | LoadImage path => error_of (outcome (loadImage host path))
  end.

(** The error of the first load that fails. *)
Fixpoint first_error (host : Host) (ls : list Load) : option error :=
  match ls with
  | [] => None
  | l :: ls' =>
      match attempt host l with
      | Some e => Some e
      | None => first_error host ls'
      end
  end.

(** The file that a load reads. *)
Definition load_path (l : Load) : string :=
  match l with LoadFont path _ => path | LoadImage path => path end.

(** The loads that are attempted: all up to and including the first that
    fails. *)
Fixpoint attempted (host : Host) (ls : list Load) : list Load :=
  match ls with
  | [] => []
  | l :: ls' =>
      match attempt host l with
      | Some _ => [l]
      | None => l :: attempted host ls'
      end
  end.

(** The files read or opened in a trace, in order. *)
Definition files_touched (tr : list Event) : list string :=
  omap (fun ev => match ev with
                  | EvReadFile path | EvOpen path => Some path
                  | _ => None
                  end) tr.

(** The strings drawn in a trace, in order: destination, face, dot, text. *)
Definition drawn_strings (tr : list Event)
    : list (RGBA * font.Face * fixed.Point26_6 * string) :=
  omap (fun ev => match ev with
                  | EvDrawString dst face dot text _ => Some (dst, face, dot, text)
                  | _ => None
                  end) tr.

(** The number of images drawn in a trace. *)
Definition draw_count (tr : list Event) : nat :=
  length (List.filter
            (fun ev => match ev with EvDraw _ _ _ _ _ => true | _ => false end) tr).

(** The dot at which [buildPortrait] draws [text] in a badge. *)
Definition textDot (pos size : Point) (face : font.Face) (text : string)
    (nudge : Z) : fixed.Point26_6 :=
  fixed.P (X (textPosition pos size face text nudge))
          (Y (textPosition pos size face text nudge)).

(** The glyph rectangles of a text drawn at a dot. *)
Definition text_rects (face : font.Face) (dot : fixed.Point26_6) (text : string)
    : list Rectangle :=
  font.glyph_rects face dot (-1) (font.runes text).

(** The badge regions of the specification: 60x60 at (18,100) and at
    (121,100). *)
Definition zetaRegion : Rectangle := Rect (Pt 18 100) (Pt 78 160).
Definition omicronRegion : Rectangle := Rect (Pt 121 100) (Pt 181 160).

(** Every point of [r] is a point of [outer]. *)
Definition within (r outer : Rectangle) : Prop :=
  forall p, In p r = true -> In p outer = true.

(** The path of the border image of a portrait. *)
Definition borderPath (portrait : CharacterPortrait) (charData : Character)
    : string :=
  if GearLevel portrait <? 13
  then "assets/gear/" +:+ strconv.Itoa (GearLevel portrait) +:+ ".png"
  else "assets/relics/" +:+ Affiliation charData +:+ ".png".

(** The pixel at (x, y) of the image that a build returns. *)
Definition portrait_pixel (built : IO RGBA) (x y : Z) : option RGBA8 :=
  match outcome built with
  | Ok img => Some (Pix img x y)
  | Failed _ => None
  end.

(** The invariants of a portrait request for a character of the catalog:
    gear level in 1..13, relic level 0 below gear 13 and in 1..9 at gear 13,
    zeta and omicron counts between 0 and the character's maxima. *)
Definition valid_portrait (p : CharacterPortrait) (char : Character) : Prop :=
  supportedCharacters !! portrait_Character p = Some char /\
  1 <= GearLevel p <= 13 /\
  (GearLevel p <> 13 -> RelicLevel p = 0) /\
  (GearLevel p = 13 -> 1 <= RelicLevel p <= 9) /\
  0 <= Zetas p <= maxZetas char /\
  0 <= Omicrons p <= maxOmicrons char.

(** The parameters that the handler reads as integers. *)
Definition intKeys : list string :=
  ["gear_level"; "relic_level"; "zetas"; "omicrons"].

(** The request [r] passes every check of the handler and its portrait, for
    the character [char], is [p]. *)
Definition serves (r : http.Request) (char : Character) (p : CharacterPortrait)
    : Prop :=
  http.Method r = "GET" /\
  supportedCharacters !! http.Get (http.Query r) "char" = Some char /\
  portrait_Character p = http.Get (http.Query r) "char" /\
  levels_accepted (http.Query r) (GearLevel p) (RelicLevel p) /\
  lenient_value (http.Query r) "zetas" (Zetas p) /\
  lenient_value (http.Query r) "omicrons" (Omicrons p) /\
  0 <= Zetas p <= maxZetas char /\
  0 <= Omicrons p <= maxOmicrons char.

(** The bytes of a list of chunks, in order. *)
Definition joined (chunks : list string) : string :=
  fold_right String.append "" chunks.

(** A content placed at [off] in a container is centered: the margin after
    it differs from the margin before it by at most one, the odd pixel going
    after a content that fits and before one that does not. *)
Definition balanced (container content off : Z) : Prop :=
  let after := container - content - off in
  (content <= container -> 0 <= off <= after /\ after <= off + 1) /\
  (container < content -> off - 1 <= after /\ after <= off <= 0).

(** The face and the text of each string drawn in a trace, in order. *)
Definition drawn_texts (tr : list Event) : list (font.Face * string) :=
  map (fun x => (snd (fst (fst x)), snd x)) (drawn_strings tr).

(** The messages of the handler. *)
Definition gearMessage : string := "The gear_level must be between 1 and 13".
Definition relicUnexpectedMessage : string :=
  "The relic_level should not be provided if gear_level is not 13".
Definition relicRangeMessage : string := "The relic_level must be between 1 and 9".
Definition zetaMessage (char : Character) : string :=
  "The zeta level must be between 0 and " +:+ strconv.Itoa (maxZetas char) +:+
  " for " +:+ Name char.
Definition omicronMessage (char : Character) : string :=
  "The omicron level must be between 0 and " +:+
  strconv.Itoa (maxOmicrons char) +:+ " for " +:+ Name char.

(** The reply "bad request" with a message, on a fresh writer. *)
Definition badRequest (msg : string) : Served :=
  reply (http.Error http.fresh msg http.StatusBadRequest).

(** ** Properties of [getIntFromQuery] *)

Lemma getIntFromQuery_absent q key :
  q !! key = None -> getIntFromQuery q key = Returned (0, None).
Proof. intros H. unfold getIntFromQuery. now rewrite H. Qed.

Lemma getIntFromQuery_empty q key :
  first_value q key "" -> getIntFromQuery q key = Returned (0, None).
Proof. intros [rest H]. unfold getIntFromQuery. now rewrite H. Qed.

Lemma getIntFromQuery_absent_or_empty q key :
  absent_or_empty q key -> getIntFromQuery q key = Returned (0, None).
Proof.
  intros [H | H]; [now apply getIntFromQuery_absent | now apply getIntFromQuery_empty].
Qed.

Lemma getIntFromQuery_non_numeric q key :
  non_numeric q key ->
  exists e, getIntFromQuery q key = Returned (0, Some e).
Proof.
  intros (v & [rest H] & Hne & Hv). unfold getIntFromQuery. rewrite H.
  destruct v as [| c v']; [congruence |]. cbn [String.length Nat.eqb].
  rewrite Hv. eauto.
Qed.

Lemma getIntFromQuery_number q key n :
  parses_to q key n -> getIntFromQuery q key = Returned (n, None).
Proof.
  intros (v & [rest H] & Hv). unfold getIntFromQuery. rewrite H.
  destruct v as [| c v']; [discriminate |]. cbn [String.length Nat.eqb].
  now rewrite Hv.
Qed.

(** Every well-formed parameter falls in one of the three classes. *)
Lemma parameter_classes q key :
  q !! key <> Some [] ->
  absent_or_empty q key \/ non_numeric q key \/ exists n, parses_to q key n.
Proof.
  intros Hwf. unfold absent_or_empty, non_numeric, parses_to, first_value.
  destruct (q !! key) as [[| v rest] |] eqn:E; [congruence | | auto].
  destruct (string_dec v "") as [-> | Hne]; [eauto |].
  destruct (strconv.Atoi v) as [n |] eqn:Ev; [right; right | right; left]; eauto 10.
Qed.

(** ** Responses *)

Lemma Error_fresh msg code :
  http.Error http.fresh msg code =
  http.MkWriter
    (<["X-Content-Type-Options" := "nosniff"]>
       (<["Content-Type" := "text/plain; charset=utf-8"]> ∅))
    (Some code) (msg +:+ http.newline).
Proof. reflexivity. Qed.

Lemma append_newline_inj a b : a +:+ http.newline = b +:+ http.newline -> a = b.
Proof.
  revert b. induction a as [| c a IH]; intros [| d b] H; cbn in H.
  - reflexivity.
  - destruct b; discriminate.
  - destruct a; discriminate.
  - injection H as -> H. f_equal. now apply IH.
Qed.

Lemma badRequest_inj a b : badRequest a = badRequest b -> a = b.
Proof.
  unfold badRequest, reply. rewrite !Error_fresh. intros H.
  injection H as H. now apply append_newline_inj.
Qed.

(** The status written by a sequence of writes. *)
Lemma Write_status w data :
  http.Status (http.Write w data) =
  Some (match http.Status w with Some c => c | None => 200 end).
Proof. destruct w as [h [c |] b]; reflexivity. Qed.

Lemma fold_Write_status chunks w :
  http.Status (fold_left http.Write chunks w) =
  match chunks, http.Status w with
  | _, Some c => Some c
  | [], None => None
  | _ :: _, None => Some 200
  end.
Proof.
  revert w. induction chunks as [| d chunks IH]; intros w; cbn [fold_left].
  - now destruct (http.Status w).
  - rewrite IH, Write_status. destruct chunks, (http.Status w); reflexivity.
Qed.

Lemma Error_status w msg code :
  http.Status (http.Error w msg code) =
  Some (match http.Status w with Some c => c | None => code end).
Proof.
  destruct w as [h [c |] b]; reflexivity.
Qed.

(** [servePortrait] answers 200 or 500. *)
Lemma servePortrait_status host portrait char tr w :
  servePortrait host http.fresh portrait char = (tr, Returned w) ->
  http.StatusCode w = 200 \/ http.StatusCode w = 500.
Proof.
  unfold servePortrait.
  destruct (outcome (buildPortrait host portrait char)) as [e | img].
  - intros H. injection H as _ <-. right. reflexivity.
  - destruct (png_Encode host img) as [chunks [e |]]; intros H; injection H as _ <-.
    + unfold http.StatusCode. rewrite Error_status, fold_Write_status.
      destruct chunks; cbn; auto.
    + unfold http.StatusCode. rewrite fold_Write_status.
      destruct chunks; cbn; auto.
Qed.

Lemma servePortrait_not_badRequest host portrait char msg :
  servePortrait host http.fresh portrait char <> badRequest msg.
Proof.
  intros H. destruct (servePortrait_status host portrait char [] _ H) as [E | E];
    discriminate E.
Qed.

Lemma servePortrait_returns host w portrait char :
  exists w', servePortrait host w portrait char =
             (trace (buildPortrait host portrait char), Returned w').
Proof.
  unfold servePortrait.
  destruct (outcome (buildPortrait host portrait char)); [eauto |].
  destruct (png_Encode host a) as [chunks [e |]]; eauto.
Qed.

(** ** The checks of the handler, one by one *)

Ltac zbools :=
  repeat match goal with
    | |- context [Z.gtb ?a ?b] => rewrite (Z.gtb_ltb a b)
    | |- context [Z.ltb ?a ?b] => destruct (Z.ltb_spec a b); try lia
    | |- context [Z.eqb ?a ?b] => destruct (Z.eqb_spec a b); try lia
    end;
  cbn [negb andb orb not_nil]; try reflexivity.

(** The relic checks pass: case analysis on the gear level and the error. *)
Ltac relic_cases Hne Heq g e :=
  destruct (Z.eq_dec g 13) as [-> | ?];
  [ specialize (Heq eq_refl); clear Hne
  | clear Heq; destruct e as [e |];
    [ clear Hne | destruct (Hne ltac:(assumption)) as [-> | ?]; [| congruence] ] ].

Section Handler.

Variable host : Host.
Variable w : http.ResponseWriter.
Variable r : http.Request.
Variable char : Character.

Let q := http.Query r.

Hypothesis Hget : http.Method r = "GET".
Hypothesis Hchar : supportedCharacters !! http.Get q "char" = Some char.

Lemma handler_enter :
  createPortraitHandler host w r =
  match getIntFromQuery q "gear_level" with
  | Panicked => ([], Panicked)
  | Returned (gearLevel, err) =>
  if not_nil err || (gearLevel <? 1) || (gearLevel >? 13) then
    reply (http.Error w gearMessage http.StatusBadRequest)
  else
  match getIntFromQuery q "relic_level" with
  | Panicked => ([], Panicked)
  | Returned (relicLevel, err) =>
  if negb (gearLevel =? 13) && negb (relicLevel =? 0) && negb (not_nil err) then
    reply (http.Error w relicUnexpectedMessage http.StatusBadRequest)
  else
  if (gearLevel =? 13) && ((relicLevel <? 1) || (relicLevel >? 9)) then
    reply (http.Error w relicRangeMessage http.StatusBadRequest)
  else
  match getIntFromQuery q "zetas" with
  | Panicked => ([], Panicked)
  | Returned (zetas, _) =>
  if (zetas <? 0) || (zetas >? maxZetas char) then
    reply (http.Error w (zetaMessage char) http.StatusBadRequest)
  else
  match getIntFromQuery q "omicrons" with
  | Panicked => ([], Panicked)
  | Returned (omicrons, _) =>
  if (omicrons <? 0) || (omicrons >? maxOmicrons char) then
    reply (http.Error w (omicronMessage char) http.StatusBadRequest)
  else
  servePortrait host w
    {| portrait_Character := http.Get q "char"; GearLevel := gearLevel;
       RelicLevel := relicLevel; Zetas := zetas; Omicrons := omicrons |} char
  end end end end.
Proof using Hget Hchar.
  unfold createPortraitHandler. rewrite Hget.
  change (negb (String.eqb "GET" "GET")) with false. cbv iota.
  fold q. rewrite Hchar. reflexivity.
Qed.

Lemma handler_gear_rejected g e :
  getIntFromQuery q "gear_level" = Returned (g, e) ->
  e <> None \/ g < 1 \/ 13 < g ->
  createPortraitHandler host w r =
  reply (http.Error w gearMessage http.StatusBadRequest).
Proof using Hget Hchar.
  intros Hg Hbad. rewrite handler_enter, Hg.
  destruct e as [e |]; [reflexivity |]. cbn [not_nil orb].
  destruct Hbad as [Hbad | Hbad]; [congruence |]. zbools.
Qed.

Lemma handler_relic_unexpected g rl :
  getIntFromQuery q "gear_level" = Returned (g, None) -> 1 <= g <= 12 ->
  getIntFromQuery q "relic_level" = Returned (rl, None) -> rl <> 0 ->
  createPortraitHandler host w r =
  reply (http.Error w relicUnexpectedMessage http.StatusBadRequest).
Proof using Hget Hchar.
  intros Hg Hrange Hr Hrl. rewrite handler_enter, Hg, Hr. zbools.
Qed.

Lemma handler_relic_out_of_range rl e :
  getIntFromQuery q "gear_level" = Returned (13, None) ->
  getIntFromQuery q "relic_level" = Returned (rl, e) -> rl < 1 \/ 9 < rl ->
  createPortraitHandler host w r =
  reply (http.Error w relicRangeMessage http.StatusBadRequest).
Proof using Hget Hchar.
  intros Hg Hr Hrl. rewrite handler_enter, Hg, Hr. zbools.
Qed.

Lemma handler_zetas_rejected g rl z ez :
  levels_accepted q g rl ->
  getIntFromQuery q "zetas" = Returned (z, ez) -> z < 0 \/ maxZetas char < z ->
  createPortraitHandler host w r =
  reply (http.Error w (zetaMessage char) http.StatusBadRequest).
Proof using Hget Hchar.
  intros (e & Hg & Hrange & Hr & Hne & Heq) Hz Hbad.
  rewrite handler_enter, Hg, Hr, Hz. relic_cases Hne Heq g e; zbools.
Qed.

Lemma handler_omicrons_rejected g rl z ez o eo :
  levels_accepted q g rl ->
  getIntFromQuery q "zetas" = Returned (z, ez) -> 0 <= z <= maxZetas char ->
  getIntFromQuery q "omicrons" = Returned (o, eo) ->
  o < 0 \/ maxOmicrons char < o ->
  createPortraitHandler host w r =
  reply (http.Error w (omicronMessage char) http.StatusBadRequest).
Proof using Hget Hchar.
  intros (e & Hg & Hrange & Hr & Hne & Heq) Hz Hzr Ho Hbad.
  rewrite handler_enter, Hg, Hr, Hz, Ho. relic_cases Hne Heq g e; zbools.
Qed.

Lemma handler_validated g rl z ez o eo :
  levels_accepted q g rl ->
  getIntFromQuery q "zetas" = Returned (z, ez) -> 0 <= z <= maxZetas char ->
  getIntFromQuery q "omicrons" = Returned (o, eo) ->
  0 <= o <= maxOmicrons char ->
  createPortraitHandler host w r =
  servePortrait host w
    {| portrait_Character := http.Get q "char"; GearLevel := g;
       RelicLevel := rl; Zetas := z; Omicrons := o |} char.
Proof using Hget Hchar.
  intros (e & Hg & Hrange & Hr & Hne & Heq) Hz Hzr Ho Hor.
  rewrite handler_enter, Hg, Hr, Hz, Ho. relic_cases Hne Heq g e; zbools.
Qed.

End Handler.

(** ** The first call of the builder *)

Lemma bind_trace {A B} (c : IO A) (f : A -> IO B) :
  trace (c ≫= f) =
  (trace c ++ match outcome c with Ok a => trace (f a) | Failed _ => [] end)%list.
Proof.
  unfold mbind, IO_bind. destruct (outcome c); cbn [trace]; [| reflexivity].
  now rewrite app_nil_r.
Qed.

Lemma bind_outcome {A B} (c : IO A) (f : A -> IO B) :
  outcome (c ≫= f) =
  match outcome c with Ok a => outcome (f a) | Failed e => Failed e end.
Proof. unfold mbind, IO_bind. now destruct (outcome c). Qed.

Lemma loadFont_trace host path size :
  exists tl, trace (loadFont host path size) = EvReadFile path :: tl.
Proof. unfold loadFont. rewrite bind_trace. cbn. eauto. Qed.

(** Every run of the builder starts by reading the font file. *)
Lemma buildPortrait_first_call host portrait charData :
  exists tl, trace (buildPortrait host portrait charData) = EvReadFile fontPath :: tl.
Proof.
  unfold buildPortrait. rewrite bind_trace.
  destruct (loadFont_trace host fontPath 18) as [tl ->]. cbn. eauto.
Qed.

Lemma buildPortrait_trace_not_nil host portrait charData :
  trace (buildPortrait host portrait charData) <> [].
Proof.
  destruct (buildPortrait_first_call host portrait charData) as [tl ->]. discriminate.
Qed.

(** ** The supported characters *)

Lemma supported_character id char :
  supportedCharacters !! id = Some char ->
  id = "darth_vader" /\ char = Demo.darth_vader.
Proof.
  unfold supportedCharacters. intros H.
  apply lookup_singleton_Some in H as [<- <-]. split; reflexivity.
Qed.

Lemma supported_maxima id char :
  supportedCharacters !! id = Some char ->
  0 <= maxZetas char /\ 0 <= maxOmicrons char.
Proof. intros H. apply supported_character in H as [_ ->]. cbn. lia. Qed.

(** ** The handler never confuses two replies *)

Ltac differ H :=
  first
    [ discriminate H
    | apply badRequest_inj in H; cbn in H; discriminate H
    | exact (servePortrait_not_badRequest _ _ _ _ H) ].

(** Case analysis on the remaining parameters and checks of the handler. *)
Ltac split_cases :=
  repeat match goal with
    | |- context [getIntFromQuery ?q ?k] =>
        destruct (getIntFromQuery q k) as [| [? ?]]
    | |- context [if ?b then _ else _] => destruct b
    end.

(** ** C1: the gear level *)

(** C1. For a GET request with a known character: when [gear_level] is
    absent or empty, is not an integer, or is an integer outside 1..13, the
    handler answers 400 with the gear level message and makes no call at
    all, whereas every run of the builder makes at least one; when
    [gear_level] is an integer in 1..13 the answer is not this one. *)
Theorem gear_level_check host r char :
  http.Method r = "GET" ->
  supportedCharacters !! http.Get (http.Query r) "char" = Some char ->
  ((absent_or_empty (http.Query r) "gear_level" \/
    non_numeric (http.Query r) "gear_level" \/
    (exists n, parses_to (http.Query r) "gear_level" n /\ (n < 1 \/ 13 < n))) ->
   createPortraitHandler host http.fresh r = badRequest gearMessage /\
   served_status (createPortraitHandler host http.fresh r) = Some 400 /\
   fst (createPortraitHandler host http.fresh r) = [] /\
   (forall portrait charData,
      trace (buildPortrait host portrait charData) <> []))
  /\
  (forall n, parses_to (http.Query r) "gear_level" n -> 1 <= n <= 13 ->
   createPortraitHandler host http.fresh r <> badRequest gearMessage).
Proof.
  intros Hget Hchar. split.
  - intros Hbad.
    assert (E : createPortraitHandler host http.fresh r = badRequest gearMessage).
    { destruct Hbad as [H | [H | (n & H & Hn)]].
      + apply getIntFromQuery_absent_or_empty in H.
        apply (handler_gear_rejected host http.fresh r char Hget Hchar 0 None H).
        right; left; lia.
      + apply getIntFromQuery_non_numeric in H as [e H].
        apply (handler_gear_rejected host http.fresh r char Hget Hchar 0 (Some e) H).
        left; discriminate.
      + apply getIntFromQuery_number in H.
        apply (handler_gear_rejected host http.fresh r char Hget Hchar n None H).
        right; exact Hn. }
    rewrite E. repeat split. apply buildPortrait_trace_not_nil.
  - intros n Hn Hrange. apply getIntFromQuery_number in Hn.
    rewrite (handler_enter host http.fresh r char Hget Hchar), Hn.
    cbn [not_nil orb]. zbools.
    all: split_cases; intros Hsame; differ Hsame.
Qed.

Lemma gear_level_check_witness :
  createPortraitHandler Demo.host http.fresh (Demo.get (Demo.query "14" [])) =
  badRequest gearMessage.
Proof.
  apply (proj1 (gear_level_check Demo.host (Demo.get (Demo.query "14" []))
                  Demo.darth_vader eq_refl eq_refl)).
  right; right. exists 14. split; [| lia].
  exists "14". split; [exists []; reflexivity | reflexivity].
Defined.

Lemma lenient_value_get q key n :
  lenient_value q key n -> exists e, getIntFromQuery q key = Returned (n, e).
Proof.
  intros [[[H | H] ->] | H].
  - apply getIntFromQuery_absent_or_empty in H. eauto.
  - apply getIntFromQuery_non_numeric in H as [e H]. eauto.
  - apply getIntFromQuery_number in H. eauto.
Qed.

(** ** C2: the relic level *)

(** C2, as the code has it. For a GET request with a known character whose
    [gear_level] is the integer [g]: when [g] is in 1..12 and [relic_level]
    is the decimal text of a nonzero integer, the handler answers 400 (relic
    level not expected); when [g] is 13 and [relic_level] is absent or
    empty, not an integer, or an integer outside 1..9, the handler answers
    400 (relic level out of range); when [g] is 13 and [relic_level] is an
    integer in 1..9, neither answer is given; and when [g] is in 1..12 and
    [relic_level] is a value that [strconv.Atoi] rejects, neither answer is
    given either. *)
Theorem relic_level_check host r char g :
  http.Method r = "GET" ->
  supportedCharacters !! http.Get (http.Query r) "char" = Some char ->
  parses_to (http.Query r) "gear_level" g ->
  (1 <= g <= 12 ->
   forall n, parses_to (http.Query r) "relic_level" n -> n <> 0 ->
   createPortraitHandler host http.fresh r = badRequest relicUnexpectedMessage /\
   served_status (createPortraitHandler host http.fresh r) = Some 400)
  /\
  (g = 13 ->
   absent_or_empty (http.Query r) "relic_level" \/
   non_numeric (http.Query r) "relic_level" \/
   (exists n, parses_to (http.Query r) "relic_level" n /\ (n < 1 \/ 9 < n)) ->
   createPortraitHandler host http.fresh r = badRequest relicRangeMessage /\
   served_status (createPortraitHandler host http.fresh r) = Some 400)
  /\
  (g = 13 ->
   forall n, parses_to (http.Query r) "relic_level" n -> 1 <= n <= 9 ->
   createPortraitHandler host http.fresh r <> badRequest relicUnexpectedMessage /\
   createPortraitHandler host http.fresh r <> badRequest relicRangeMessage)
  /\
  (1 <= g <= 12 ->
   non_numeric (http.Query r) "relic_level" ->
   createPortraitHandler host http.fresh r <> badRequest relicUnexpectedMessage /\
   createPortraitHandler host http.fresh r <> badRequest relicRangeMessage).
Proof.
  intros Hget Hchar Hg. apply getIntFromQuery_number in Hg.
  split; [| split; [| split]].
  - intros Hrange n Hn Hne. apply getIntFromQuery_number in Hn.
    rewrite (handler_relic_unexpected host http.fresh r char Hget Hchar g n Hg Hrange Hn Hne).
    split; reflexivity.
  - intros -> Hbad.
    assert (E : createPortraitHandler host http.fresh r = badRequest relicRangeMessage).
    { destruct Hbad as [H | [H | (n & H & Hn)]].
      + apply getIntFromQuery_absent_or_empty in H.
        apply (handler_relic_out_of_range host http.fresh r char Hget Hchar 0 None Hg H).
        left; lia.
      + apply getIntFromQuery_non_numeric in H as [e H].
        apply (handler_relic_out_of_range host http.fresh r char Hget Hchar 0 (Some e) Hg H).
        left; lia.
      + apply getIntFromQuery_number in H.
        apply (handler_relic_out_of_range host http.fresh r char Hget Hchar n None Hg H Hn). }
    rewrite E. split; reflexivity.
  - intros -> n Hn Hrange. apply getIntFromQuery_number in Hn.
    rewrite (handler_enter host http.fresh r char Hget Hchar), Hg, Hn.
    cbn [not_nil orb]. zbools.
    split; split_cases; intros Hsame; differ Hsame.
  - intros Hrange Hn. apply getIntFromQuery_non_numeric in Hn as [e Hn].
    rewrite (handler_enter host http.fresh r char Hget Hchar), Hg, Hn.
    cbn [not_nil orb]. zbools.
    all: split; split_cases; intros Hsame; differ Hsame.
Qed.

Lemma relic_level_check_witness :
  createPortraitHandler Demo.host http.fresh
    (Demo.get (Demo.query "7" [("relic_level", ["3"])])) =
  badRequest relicUnexpectedMessage.
Proof.
  refine (proj1 (proj1 (relic_level_check Demo.host
                   (Demo.get (Demo.query "7" [("relic_level", ["3"])]))
                   Demo.darth_vader 7 eq_refl eq_refl _) _ 3 _ _)).
  - exists "7". split; [exists []; reflexivity | reflexivity].
  - lia.
  - exists "3". split; [exists []; reflexivity | reflexivity].
  - lia.
Defined.

(** The claim as written fails: below gear 13 a [relic_level] that is not
    zero but that [strconv.Atoi] rejects, a number beyond the [int] range or
    a number followed by a space, is answered 200. *)
Lemma relic_level_unparsed_accepted :
  strconv.Atoi "9223372036854775808" = None /\
  served_status
    (createPortraitHandler Demo.host http.fresh
       (Demo.get (Demo.query "12" [("relic_level", ["9223372036854775808"])]))) =
  Some 200 /\
  strconv.Atoi "3 " = None /\
  served_status
    (createPortraitHandler Demo.host http.fresh
       (Demo.get (Demo.query "12" [("relic_level", ["3 "])]))) = Some 200.
Proof. repeat split; vm_compute; reflexivity. Qed.

(** ** C3: zetas and omicrons *)

(** C3. For a GET request with a known character that passes the gear and
    relic checks: the value [z] of [zetas] and the value [o] of [omicrons]
    are 0 when the parameter is absent, empty or not an integer, and the
    integer otherwise. The maxima of the character are not negative, so 0
    and the maximum are in range. When both values are in range the request
    reaches the builder with these values and the answer is not a 400; when
    [z] is out of range the answer is 400 with the zeta message, which names
    the character's maximum; when [z] is in range and [o] is not, the answer
    is 400 with the omicron message. *)
Theorem zetas_omicrons_check host r char g rl z o :
  http.Method r = "GET" ->
  supportedCharacters !! http.Get (http.Query r) "char" = Some char ->
  levels_accepted (http.Query r) g rl ->
  lenient_value (http.Query r) "zetas" z ->
  lenient_value (http.Query r) "omicrons" o ->
  (0 <= maxZetas char /\ 0 <= maxOmicrons char)
  /\
  (0 <= z <= maxZetas char -> 0 <= o <= maxOmicrons char ->
   createPortraitHandler host http.fresh r =
   servePortrait host http.fresh
     {| portrait_Character := http.Get (http.Query r) "char"; GearLevel := g;
        RelicLevel := rl; Zetas := z; Omicrons := o |} char /\
   served_status (createPortraitHandler host http.fresh r) <> Some 400)
  /\
  (z < 0 \/ maxZetas char < z ->
   createPortraitHandler host http.fresh r = badRequest (zetaMessage char) /\
   served_status (createPortraitHandler host http.fresh r) = Some 400 /\
   zetaMessage char =
   "The zeta level must be between 0 and " +:+ strconv.Itoa (maxZetas char) +:+
   " for " +:+ Name char)
  /\
  (0 <= z <= maxZetas char -> o < 0 \/ maxOmicrons char < o ->
   createPortraitHandler host http.fresh r = badRequest (omicronMessage char) /\
   served_status (createPortraitHandler host http.fresh r) = Some 400 /\
   omicronMessage char =
   "The omicron level must be between 0 and " +:+
   strconv.Itoa (maxOmicrons char) +:+ " for " +:+ Name char).
Proof.
  intros Hget Hchar Hlevels Hz Ho.
  apply lenient_value_get in Hz as [ez Hz]. apply lenient_value_get in Ho as [eo Ho].
  split; [exact (supported_maxima _ _ Hchar) |]. split; [| split].
  - intros Hzr Hor.
    rewrite (handler_validated host http.fresh r char Hget Hchar g rl z ez o eo
               Hlevels Hz Hzr Ho Hor).
    split; [reflexivity |]. unfold served_status.
    destruct (servePortrait_returns host http.fresh
                (MkPortrait (http.Get (http.Query r) "char") g rl z o) char)
      as [w' E].
    rewrite E. cbn [snd].
    destruct (servePortrait_status _ _ _ _ _ E) as [-> | ->]; discriminate.
  - intros Hbad.
    rewrite (handler_zetas_rejected host http.fresh r char Hget Hchar g rl z ez
               Hlevels Hz Hbad).
    repeat split.
  - intros Hzr Hbad.
    rewrite (handler_omicrons_rejected host http.fresh r char Hget Hchar g rl z ez
               o eo Hlevels Hz Hzr Ho Hbad).
    repeat split.
Qed.

Lemma zetas_omicrons_check_witness :
  createPortraitHandler Demo.host http.fresh
    (Demo.get (Demo.query "12" [("zetas", ["many"]); ("omicrons", ["2"])])) =
  badRequest (omicronMessage Demo.darth_vader).
Proof.
  refine (proj1 (proj2 (proj2 (proj2 (zetas_omicrons_check Demo.host
            (Demo.get (Demo.query "12" [("zetas", ["many"]); ("omicrons", ["2"])]))
            Demo.darth_vader 12 0 0 2 eq_refl eq_refl _ _ _))) _ _)).
  - exists None. repeat split; try reflexivity; lia.
  - left. split; [| reflexivity]. right.
    exists "many". split; [exists []; reflexivity |]. split; [discriminate | reflexivity].
  - right. exists "2". split; [exists []; reflexivity | reflexivity].
  - cbn. lia.
  - right. cbn. lia.
Defined.

(** ** C10: a relic level that is not an integer, below gear 13 *)

(** C10. For a GET request with a known character whose [gear_level] is an
    integer in 1..12 and whose [relic_level] is present and not an integer:
    [getIntFromQuery] returns 0 with an error, neither relic answer is
    given, and when the zeta and omicron values are in range the request
    reaches the builder with relic level 0. On the concrete host the request
    [gear_level=12&relic_level=abc] is answered 200. *)
Theorem relic_level_non_numeric_accepted :
  (forall host r char g z o,
     http.Method r = "GET" ->
     supportedCharacters !! http.Get (http.Query r) "char" = Some char ->
     parses_to (http.Query r) "gear_level" g -> 1 <= g <= 12 ->
     non_numeric (http.Query r) "relic_level" ->
     (exists e, getIntFromQuery (http.Query r) "relic_level" = Returned (0, Some e)) /\
     createPortraitHandler host http.fresh r <> badRequest relicUnexpectedMessage /\
     createPortraitHandler host http.fresh r <> badRequest relicRangeMessage /\
     (lenient_value (http.Query r) "zetas" z ->
      lenient_value (http.Query r) "omicrons" o ->
      0 <= z <= maxZetas char -> 0 <= o <= maxOmicrons char ->
      createPortraitHandler host http.fresh r =
      servePortrait host http.fresh
        {| portrait_Character := http.Get (http.Query r) "char"; GearLevel := g;
           RelicLevel := 0; Zetas := z; Omicrons := o |} char))
  /\
  served_status
    (createPortraitHandler Demo.host http.fresh
       (Demo.get (Demo.query "12" [("relic_level", ["abc"])]))) = Some 200.
Proof.
  split; [| vm_compute; reflexivity].
  intros host r char g z o Hget Hchar Hg Hrange Hrelic.
  apply getIntFromQuery_number in Hg.
  apply getIntFromQuery_non_numeric in Hrelic as [e Hr].
  split; [eauto |].
  assert (Hlevels : levels_accepted (http.Query r) g 0).
  { exists (Some e). repeat split; try assumption; try lia.
    all: intros _; left; reflexivity. }
  split; [| split].
  - rewrite (handler_enter host http.fresh r char Hget Hchar), Hg, Hr.
    cbn [not_nil orb]. zbools. split_cases; intros Hsame; differ Hsame.
  - rewrite (handler_enter host http.fresh r char Hget Hchar), Hg, Hr.
    cbn [not_nil orb]. zbools. split_cases; intros Hsame; differ Hsame.
  - intros Hz Ho Hzr Hor.
    apply lenient_value_get in Hz as [ez Hz]. apply lenient_value_get in Ho as [eo Ho].
    exact (handler_validated host http.fresh r char Hget Hchar g 0 z ez o eo
             Hlevels Hz Hzr Ho Hor).
Qed.

Lemma relic_level_non_numeric_accepted_witness :
  createPortraitHandler Demo.host http.fresh
    (Demo.get (Demo.query "12" [("relic_level", ["abc"])])) =
  servePortrait Demo.host http.fresh
    {| portrait_Character := "darth_vader"; GearLevel := 12;
       RelicLevel := 0; Zetas := 0; Omicrons := 0 |} Demo.darth_vader.
Proof.
  refine (proj2 (proj2 (proj2 (proj1 relic_level_non_numeric_accepted Demo.host
            (Demo.get (Demo.query "12" [("relic_level", ["abc"])]))
            Demo.darth_vader 12 0 0 eq_refl eq_refl _ _ _))) _ _ _ _).
  - exists "12". split; [exists []; reflexivity | reflexivity].
  - lia.
  - exists "abc". split; [exists []; reflexivity |]. split; [discriminate | reflexivity].
  - left. split; [| reflexivity]. left. left. reflexivity.
  - left. split; [| reflexivity]. left. left. reflexivity.
  - cbn. lia.
  - cbn. lia.
Defined.

(** ** Drawing never changes the rectangle of the destination *)

Lemma DrawMask_Rect dst r src sp mask mp op :
  RGBA_Rect (draw.DrawMask dst r src sp mask mp op) = RGBA_Rect dst.
Proof. unfold draw.DrawMask. now destruct (Empty _). Qed.

Lemma Draw_Rect dst r src sp op :
  RGBA_Rect (draw.Draw dst r src sp op) = RGBA_Rect dst.
Proof. apply DrawMask_Rect. Qed.

Lemma DrawRunes_Rect f src cs : forall dst dot prevC,
  RGBA_Rect (font.DrawRunes f src dst dot prevC cs) = RGBA_Rect dst.
Proof.
  induction cs as [| c cs IH]; intros dst dot prevC; cbn [font.DrawRunes].
  - reflexivity.
  - destruct (font.Face_Glyph f _ c) as [g |]; rewrite IH; [apply DrawMask_Rect | reflexivity].
Qed.

Lemma DrawString_Rect dst src f dot s :
  RGBA_Rect (font.DrawString dst src f dot s) = RGBA_Rect dst.
Proof. apply DrawRunes_Rect. Qed.

(** ** Reasoning about what a computation returns *)

Lemma returns_bind {A B} (c : IO A) (f : A -> IO B) (Q : A -> Prop) (P : B -> Prop) :
  returns c Q -> (forall a, Q a -> returns (f a) P) -> returns (c ≫= f) P.
Proof.
  intros Hc Hf b. rewrite bind_outcome.
  destruct (outcome c) as [e | a] eqn:E; [discriminate |].
  apply (Hf a). now apply Hc.
Qed.

Lemma returns_any {A} (c : IO A) : returns c (fun _ => True).
Proof. now intros a _. Qed.

Lemma returns_ret {A} (a : A) (P : A -> Prop) : P a -> returns (mret a) P.
Proof. intros H b E. injection E as <-. exact H. Qed.

Lemma returns_draw dst r src sp op :
  returns (draw_Draw dst r src sp op) (fun m => RGBA_Rect m = RGBA_Rect dst).
Proof. intros m E. injection E as <-. apply Draw_Rect. Qed.

Lemma returns_drawText img face x y text col :
  returns (drawText img face x y text col) (fun m => RGBA_Rect m = RGBA_Rect img).
Proof. intros m E. injection E as <-. apply DrawString_Rect. Qed.

Lemma returns_centerImageOnCanvas src dest :
  returns (centerImageOnCanvas src dest) (fun m => RGBA_Rect m = RGBA_Rect dest).
Proof. apply returns_draw. Qed.

Lemma returns_placeImageOnCanvas src :
  returns (placeImageOnCanvas src) (fun m => RGBA_Rect m = canvasRect).
Proof.
  unfold placeImageOnCanvas.
  eapply returns_bind; [apply returns_draw |]. cbn beta. intros c1 H1.
  eapply returns_bind; [apply returns_draw |]. cbn beta. intros c2 H2.
  apply returns_ret. now rewrite H2, H1.
Qed.

(** ** C7: the canvas is 200x200 *)

(** C7. Whatever the host returns for the fonts and the images, an image
    that [buildPortrait] returns has the bounds (0,0)-(200,200): it is 200
    wide and 200 high. *)
Theorem portrait_bounds host portrait charData img :
  outcome (buildPortrait host portrait charData) = Ok img ->
  RGBA_Bounds img = Rect (Pt 0 0) (Pt 200 200) /\
  Dx (RGBA_Bounds img) = 200 /\ Dy (RGBA_Bounds img) = 200.
Proof.
  intros E.
  assert (H : RGBA_Rect img = canvasRect); [| unfold RGBA_Bounds; rewrite H; now cbn].
  revert img E. change (returns (buildPortrait host portrait charData)
                          (fun m => RGBA_Rect m = canvasRect)).
  unfold buildPortrait.
  eapply returns_bind; [apply returns_any |]. intros small _.
  eapply returns_bind; [apply returns_any |]. intros large _. cbv zeta.
  eapply returns_bind; [apply returns_any |]. intros characterImg _.
  eapply returns_bind; [apply returns_placeImageOnCanvas |]. cbn beta. intros c0 H0.
  eapply returns_bind with (Q := fun m => RGBA_Rect m = canvasRect).
  { destruct (GearLevel portrait <? 13).
    - eapply returns_bind; [apply returns_any |]. intros borderImg _.
      intros m E. apply returns_centerImageOnCanvas in E. congruence.
    - eapply returns_bind; [apply returns_any |]. intros relicBorderImg _.
      intros m E. apply returns_draw in E. congruence. }
  cbn beta. intros c1 H1.
  eapply returns_bind; [apply returns_any |]. intros levelBadgeImg _.
  eapply returns_bind; [apply returns_draw |]. cbn beta. intros c2 H2.
  eapply returns_bind; [apply returns_drawText |]. cbn beta. intros c3 H3.
  eapply returns_bind with (Q := fun m => RGBA_Rect m = canvasRect).
  { destruct (Zetas portrait >? 0).
    - eapply returns_bind; [apply returns_any |]. intros zetaBadgeImg _.
      eapply returns_bind; [apply returns_draw |]. cbn beta. intros c4 H4.
      intros m E. apply returns_drawText in E. congruence.
    - apply returns_ret. congruence. }
  cbn beta. intros c5 H5.
  eapply returns_bind with (Q := fun m => RGBA_Rect m = canvasRect).
  { destruct (Omicrons portrait >? 0).
    - eapply returns_bind; [apply returns_any |]. intros omicronBadgeImg _.
      eapply returns_bind; [apply returns_draw |]. cbn beta. intros c6 H6.
      intros m E. apply returns_drawText in E. congruence.
    - apply returns_ret. congruence. }
  cbn beta. intros c7 H7. apply returns_ret. exact H7.
Qed.

Lemma portrait_bounds_witness :
  match outcome (buildPortrait Demo.host (MkPortrait "darth_vader" 13 5 3 1)
                   Demo.darth_vader) with
  | Ok img => RGBA_Bounds img = Rect (Pt 0 0) (Pt 200 200)
  | Failed _ => False
  end.
Proof.
  destruct (outcome (buildPortrait Demo.host (MkPortrait "darth_vader" 13 5 3 1)
                       Demo.darth_vader)) as [e | img] eqn:E.
  - assert (H : error_of (outcome (buildPortrait Demo.host
                  (MkPortrait "darth_vader" 13 5 3 1) Demo.darth_vader)) = None)
      by (vm_compute; reflexivity).
    rewrite E in H. discriminate H.
  - exact (proj1 (portrait_bounds _ _ _ _ E)).
Defined.

(** ** C5: the centering formula *)

Lemma wrap_in_range z : GoInt.in_range z -> GoInt.wrap z = z.
Proof.
  unfold GoInt.in_range, GoInt.min_int, GoInt.max_int, GoInt.wrap. intros H.
  rewrite Z.mod_small; lia.
Qed.

Lemma wrap_range z : GoInt.in_range (GoInt.wrap z).
Proof.
  unfold GoInt.in_range, GoInt.min_int, GoInt.max_int, GoInt.wrap.
  pose proof (Z.mod_pos_bound (z + 2 ^ 63) (2 ^ 64) ltac:(lia)). lia.
Qed.

Lemma quot2_range z : GoInt.in_range z -> GoInt.in_range (Z.quot z 2).
Proof.
  unfold GoInt.in_range, GoInt.min_int, GoInt.max_int. intros H.
  destruct (Z.le_gt_cases 0 z) as [Hz | Hz].
  - rewrite Z.quot_div_nonneg by lia.
    pose proof (Z.div_pos z 2 Hz ltac:(lia)).
    assert (z / 2 <= z) by (apply Z.div_le_upper_bound; lia). lia.
  - pose proof (Z.quot_opp_l z 2 ltac:(lia)) as Ho.
    assert (E : Z.quot z 2 = - Z.quot (- z) 2) by lia.
    rewrite E, Z.quot_div_nonneg by lia.
    pose proof (Z.div_pos (- z) 2 ltac:(lia) ltac:(lia)).
    assert (- z / 2 <= - z) by (apply Z.div_le_upper_bound; lia). lia.
Qed.

(** Half a difference that fits an [int], as Go computes it. *)
Lemma half_difference c s :
  GoInt.in_range (c - s) -> GoInt.div (GoInt.sub c s) 2 = Z.quot (c - s) 2.
Proof.
  intros H. unfold GoInt.div, GoInt.sub. rewrite (wrap_in_range _ H).
  apply wrap_in_range. now apply quot2_range.
Qed.

Lemma difference_in_range c s :
  GoInt.in_range c -> GoInt.in_range s -> 0 <= c -> 0 <= s -> GoInt.in_range (c - s).
Proof. unfold GoInt.in_range, GoInt.min_int, GoInt.max_int. lia. Qed.

Lemma Dx_range r : GoInt.in_range (Dx r).
Proof. apply wrap_range. Qed.

Lemma Dy_range r : GoInt.in_range (Dy r).
Proof. apply wrap_range. Qed.

(** C5, as the code has it. For a content (the source image) and a container
    (the destination) whose widths and heights are not negative, the offset
    of [centerImageOnCanvas] is the difference of the sizes halved with Go's
    integer division, which truncates toward zero, on each axis; so is the
    offset of [placeImageOnCanvas], whose container is 200x200. The offset
    is the floor of half the difference on an axis where the content is not
    larger than the container; where the content is larger it is minus the
    floor of half the excess. *)
Theorem centering_offset_truncates src dest :
  0 <= Dx (Bounds src) -> 0 <= Dy (Bounds src) ->
  0 <= Dx (RGBA_Bounds dest) -> 0 <= Dy (RGBA_Bounds dest) ->
  let sw := Dx (Bounds src) in
  let sh := Dy (Bounds src) in
  let cw := Dx (RGBA_Bounds dest) in
  let ch := Dy (RGBA_Bounds dest) in
  centerImageOnCanvas_offset src dest = Pt (Z.quot (cw - sw) 2) (Z.quot (ch - sh) 2) /\
  placeImageOnCanvas_offset src = Pt (Z.quot (200 - sw) 2) (Z.quot (200 - sh) 2) /\
  (forall c s, 0 <= s <= c -> Z.quot (c - s) 2 = (c - s) / 2) /\
  (forall c s, 0 <= c < s -> Z.quot (c - s) 2 = - ((s - c) / 2)).
Proof.
  intros Hsw Hsh Hcw Hch sw sh cw ch.
  pose proof (Dx_range (Bounds src)) as Rsw. pose proof (Dy_range (Bounds src)) as Rsh.
  pose proof (Dx_range (RGBA_Bounds dest)) as Rcw.
  pose proof (Dy_range (RGBA_Bounds dest)) as Rch.
  assert (R200 : GoInt.in_range 200) by (unfold GoInt.in_range, GoInt.min_int, GoInt.max_int; lia).
  repeat split.
  - unfold centerImageOnCanvas_offset. cbn [Size X Y].
    rewrite !half_difference by (apply difference_in_range; assumption). reflexivity.
  - unfold placeImageOnCanvas_offset, Point_Div, Point_Sub. cbn [Size X Y].
    rewrite !half_difference by (apply difference_in_range; try assumption; lia).
    reflexivity.
  - intros c s H. apply Z.quot_div_nonneg; lia.
  - intros c s H. replace (c - s) with (- (s - c)) by lia.
    rewrite Z.quot_opp_l by lia. rewrite Z.quot_div_nonneg by lia. reflexivity.
Qed.

Lemma centering_offset_truncates_witness :
  placeImageOnCanvas_offset (Demo.flat 201 201 Demo.red) =
  Pt (Z.quot (200 - 201) 2) (Z.quot (200 - 201) 2).
Proof.
  refine (proj1 (proj2 (centering_offset_truncates (Demo.flat 201 201 Demo.red)
                          (NewRGBA canvasRect) _ _ _ _)));
    vm_compute; discriminate.
Defined.

(** The claim as written fails: a content of 201x201 on the 200x200 canvas
    gets the offset (0,0), and the floor of (200 - 201) / 2 is -1. *)
Lemma centering_offset_not_floor :
  placeImageOnCanvas_offset (Demo.flat 201 201 Demo.red) = Pt 0 0 /\
  centerImageOnCanvas_offset (Demo.flat 201 201 Demo.red) (NewRGBA canvasRect) = Pt 0 0 /\
  (200 - 201) / 2 = -1 /\
  placeImageOnCanvas_offset (Demo.flat 201 201 Demo.red) <>
  Pt ((200 - 201) / 2) ((200 - 201) / 2).
Proof. repeat split. vm_compute. discriminate. Qed.

(** ** The loads as calls *)

Lemma loadFont_io host path size :
  loadFont host path size = MkIO [EvReadFile path] (outcome (loadFont host path size)).
Proof.
  unfold loadFont, call, pure, mbind, IO_bind, mret, IO_ret. cbn.
  destruct (ioutil_ReadFile host path) as [e | b]; [reflexivity |].
  destruct (opentype_Parse host b) as [e | f]; [reflexivity |]. cbn.
  destruct (opentype_NewFace host f _) as [e | fc]; reflexivity.
Qed.

Lemma loadImage_io host path :
  loadImage host path = MkIO [EvOpen path] (outcome (loadImage host path)).
Proof.
  unfold loadImage, call, pure, mbind, IO_bind, mret, IO_ret. cbn.
  destruct (os_Open host path) as [e | b]; [reflexivity |].
  destruct (image_Decode host b) as [e | f]; reflexivity.
Qed.

Ltac io_simpl :=
  cbn [mbind IO_bind mret IO_ret trace outcome call pure draw_Draw drawText
       Drawer_DrawString centerImageOnCanvas placeImageOnCanvas app
       error_of value_of].

(** One load of the builder: case analysis on its result. *)
Ltac load_font host size e face E :=
  rewrite (loadFont_io host fontPath size);
  destruct (outcome (loadFont host fontPath size)) as [e | face] eqn:E; io_simpl.

Ltac load_image host path e img E :=
  rewrite (loadImage_io host path);
  destruct (outcome (loadImage host path)) as [e | img] eqn:E; io_simpl.

(** All the runs of the builder: one goal for each place where it can stop. *)
Ltac build_cases host portrait charData :=
  unfold buildPortrait;
  let e := fresh "e" in
  let small := fresh "small" in let Es := fresh "Esmall" in
  let large := fresh "large" in let El := fresh "Elarge" in
  let chr := fresh "chr" in let Ec := fresh "Echr" in
  let brd := fresh "brd" in let Eb := fresh "Ebrd" in
  let lvl := fresh "lvl" in let Elv := fresh "Elvl" in
  let zt := fresh "zt" in let Ezt := fresh "Ezt" in
  let om := fresh "om" in let Eom := fresh "Eom" in
  let Eg := fresh "Egear" in let Ez := fresh "Ezetas" in let Eo := fresh "Eomicrons" in
  let omicron :=
    (destruct (Omicrons portrait >? 0) eqn:Eo;
     [ load_image host "assets/badges/omicron.png" e om Eom | io_simpl ]) in
  let level :=
    (load_image host "assets/badges/level.png" e lvl Elv;
     [ | destruct (Zetas portrait >? 0) eqn:Ez;
         [ load_image host "assets/badges/zeta.png" e zt Ezt; [ | omicron ]
         | io_simpl; omicron ] ]) in
  load_font host 18 e small Es;
  [ | load_font host 24 e large El;
      [ | load_image host ("assets/characters/" +:+ imgSrc charData) e chr Ec;
          [ | destruct (GearLevel portrait <? 13) eqn:Eg;
              [ load_image host
                  ("assets/gear/" +:+ strconv.Itoa (GearLevel portrait) +:+ ".png")
                  e brd Eb; [ | level ]
              | load_image host ("assets/relics/" +:+ Affiliation charData +:+ ".png")
                  e brd Eb; [ | level ] ] ] ] ].

(** ** C6: the builder stops at the first load that fails *)

Lemma first_error_None host ls :
  first_error host ls = None <-> Forall (fun l => attempt host l = None) ls.
Proof.
  induction ls as [| l ls IH]; cbn [first_error].
  - split; [constructor | reflexivity].
  - destruct (attempt host l) as [e |] eqn:E.
    + split; [discriminate |]. intros H. inversion H; subst. congruence.
    + rewrite IH. split; [now constructor |]. intros H. now inversion H.
Qed.

Lemma value_iff_no_error {A} (r : Err A) :
  is_Some (value_of r) <-> error_of r = None.
Proof.
  destruct r; cbn; split; intros H; try discriminate; eauto.
  now destruct H.
Qed.

(** C6. [buildPortrait] returns the error of the first load that fails, in
    the order of the loads, and then no image; it returns an image exactly
    when every load succeeds. The files it touches are those of the loads up
    to and including the first that fails. When the builder fails with [e]
    the handler answers 500 with the text [Failed to create portrait: e]. *)
Theorem build_fails_fast host portrait charData :
  let built := buildPortrait host portrait charData in
  error_of (outcome built) = first_error host (loads portrait charData) /\
  (forall e, outcome built = Failed e -> value_of (outcome built) = None) /\
  (is_Some (value_of (outcome built)) <->
   Forall (fun l => attempt host l = None) (loads portrait charData)) /\
  files_touched (trace built) =
  map load_path (attempted host (loads portrait charData)) /\
  (forall r g rl z o e,
     http.Method r = "GET" ->
     supportedCharacters !! http.Get (http.Query r) "char" = Some charData ->
     levels_accepted (http.Query r) g rl ->
     lenient_value (http.Query r) "zetas" z ->
     lenient_value (http.Query r) "omicrons" o ->
     0 <= z <= maxZetas charData -> 0 <= o <= maxOmicrons charData ->
     portrait = MkPortrait (http.Get (http.Query r) "char") g rl z o ->
     outcome built = Failed e ->
     createPortraitHandler host http.fresh r =
     (trace built,
      Returned (http.Error http.fresh ("Failed to create portrait: " +:+ e)
                  http.StatusInternalServerError)) /\
     served_status (createPortraitHandler host http.fresh r) = Some 500).
Proof.
  cbv zeta.
  assert (E1 : error_of (outcome (buildPortrait host portrait charData)) =
               first_error host (loads portrait charData)).
  { unfold loads. build_cases host portrait charData;
      cbn [first_error attempt app];
      rewrite ?Esmall, ?Elarge, ?Echr, ?Ebrd, ?Elvl, ?Ezt, ?Eom; reflexivity. }
  split; [exact E1 |]. split; [| split; [| split]].
  - intros e ->. reflexivity.
  - rewrite value_iff_no_error, E1. apply first_error_None.
  - unfold loads. build_cases host portrait charData;
      cbn [attempted attempt app];
      rewrite ?Esmall, ?Elarge, ?Echr, ?Ebrd, ?Elvl, ?Ezt, ?Eom; reflexivity.
  - intros r g rl z o e Hget Hchar Hlevels Hz Ho Hzr Hor -> E.
    apply lenient_value_get in Hz as [ez Hz]. apply lenient_value_get in Ho as [eo Ho].
    rewrite (handler_validated host http.fresh r charData Hget Hchar g rl z ez o eo
               Hlevels Hz Hzr Ho Hor).
    unfold servePortrait. rewrite E. split; reflexivity.
Qed.

Lemma build_fails_fast_witness :
  createPortraitHandler (Demo.without "assets/badges/level.png" Demo.host)
    http.fresh (Demo.get (Demo.query "12" [])) =
  (trace (buildPortrait (Demo.without "assets/badges/level.png" Demo.host)
            (MkPortrait "darth_vader" 12 0 0 0) Demo.darth_vader),
   Returned (http.Error http.fresh
               ("Failed to create portrait: " +:+
                "open assets/badges/level.png: no such file or directory")
               http.StatusInternalServerError)).
Proof.
  refine (proj1 (proj2 (proj2 (proj2 (proj2
            (build_fails_fast (Demo.without "assets/badges/level.png" Demo.host)
               (MkPortrait "darth_vader" 12 0 0 0) Demo.darth_vader))))
            (Demo.get (Demo.query "12" [])) 12 0 0 0 _ eq_refl eq_refl _ _ _ _ _
            eq_refl _)).
  - exists None. repeat split; try reflexivity; lia.
  - left. split; [| reflexivity]. left. left. reflexivity.
  - left. split; [| reflexivity]. left. left. reflexivity.
  - cbn. lia.
  - cbn. lia.
  - vm_compute. reflexivity.
Defined.

(** ** C9: the level text *)

(** The first string that a successful build draws: the text 85, with the
    24 point face, at the dot computed from that face alone, on the canvas
    on which the level badge has just been drawn. *)
Lemma level_text_drawn host portrait charData img :
  outcome (buildPortrait host portrait charData) = Ok img ->
  exists large lvl d rest,
    outcome (loadFont host fontPath 24) = Ok large /\
    outcome (loadImage host "assets/badges/level.png") = Ok lvl /\
    drawn_strings (trace (buildPortrait host portrait charData)) =
    (draw.Draw d (Add (Bounds lvl) (Pt 75 128)) lvl ZP draw.Over, large,
     textDot (Pt 75 128) (Pt 50 44) large "85" 5, "85") :: rest.
Proof.
  revert img. build_cases host portrait charData; intros img E; try discriminate E;
    do 4 eexists; (split; [reflexivity |]); (split; [reflexivity |]);
    cbn [drawn_strings omap list_omap]; reflexivity.
Qed.

Lemma cons_head {A} (a x : A) (l rest : list A) : a :: l = x :: rest -> x = a.
Proof. congruence. Qed.

(** In any run, failed or not, a first drawn string is the text 85. *)
Lemma first_text_is_85 host portrait charData x rest :
  drawn_strings (trace (buildPortrait host portrait charData)) = x :: rest ->
  snd x = "85".
Proof.
  build_cases host portrait charData; cbn [drawn_strings omap list_omap];
    intros E; try (exfalso; congruence);
    apply cons_head in E; rewrite E; reflexivity.
Qed.

(** C9. For two requests served on the same host whose builds succeed,
    whatever their character, gear level, relic level, zeta and omicron
    counts: the level text, the first string drawn and the one drawn on the
    canvas that has just received the level badge, is the constant 85 in
    both, drawn with the same face at the same dot. *)
Theorem level_text_constant host p1 c1 p2 c2 img1 img2 :
  outcome (buildPortrait host p1 c1) = Ok img1 ->
  outcome (buildPortrait host p2 c2) = Ok img2 ->
  exists large lvl d1 d2 rest1 rest2,
    outcome (loadFont host fontPath 24) = Ok large /\
    outcome (loadImage host "assets/badges/level.png") = Ok lvl /\
    drawn_strings (trace (buildPortrait host p1 c1)) =
    (draw.Draw d1 (Add (Bounds lvl) (Pt 75 128)) lvl ZP draw.Over, large,
     textDot (Pt 75 128) (Pt 50 44) large "85" 5, "85") :: rest1 /\
    drawn_strings (trace (buildPortrait host p2 c2)) =
    (draw.Draw d2 (Add (Bounds lvl) (Pt 75 128)) lvl ZP draw.Over, large,
     textDot (Pt 75 128) (Pt 50 44) large "85" 5, "85") :: rest2.
Proof.
  intros E1 E2.
  destruct (level_text_drawn _ _ _ _ E1) as (large & lvl & d1 & rest1 & Hl & Hv & H1).
  destruct (level_text_drawn _ _ _ _ E2) as (large' & lvl' & d2 & rest2 & Hl' & Hv' & H2).
  assert (large' = large) by congruence. assert (lvl' = lvl) by congruence. subst.
  exists large, lvl, d1, d2, rest1, rest2. auto.
Qed.

Lemma level_text_constant_witness :
  match outcome (buildPortrait Demo.host (MkPortrait "darth_vader" 13 5 3 1)
                   Demo.darth_vader),
        outcome (buildPortrait Demo.host (MkPortrait "darth_vader" 12 0 0 0)
                   Demo.darth_vader) with
  | Ok _, Ok _ =>
      exists x rest,
        drawn_strings
          (trace (buildPortrait Demo.host (MkPortrait "darth_vader" 12 0 0 0)
                    Demo.darth_vader)) = x :: rest /\ snd x = "85"
  | _, _ => False
  end.
Proof.
  destruct (outcome (buildPortrait Demo.host (MkPortrait "darth_vader" 13 5 3 1)
                       Demo.darth_vader)) as [e1 | img1] eqn:E1.
  { assert (H : error_of (outcome (buildPortrait Demo.host
                  (MkPortrait "darth_vader" 13 5 3 1) Demo.darth_vader)) = None)
      by (vm_compute; reflexivity).
    rewrite E1 in H. discriminate H. }
  destruct (outcome (buildPortrait Demo.host (MkPortrait "darth_vader" 12 0 0 0)
                       Demo.darth_vader)) as [e2 | img2] eqn:E2.
  { assert (H : error_of (outcome (buildPortrait Demo.host
                  (MkPortrait "darth_vader" 12 0 0 0) Demo.darth_vader)) = None)
      by (vm_compute; reflexivity).
    rewrite E2 in H. discriminate H. }
  destruct (level_text_constant Demo.host _ _ _ _ _ _ E1 E2)
    as (large & lvl & d1 & d2 & rest1 & rest2 & _ & _ & _ & H2).
  rewrite H2. eexists _, rest2. split; reflexivity.
Defined.

(** ** What a draw does to a pixel *)

Lemma Empty_not_In r p : Empty r = true -> In p r = false.
Proof.
  unfold Empty, In. rewrite orb_true_iff, !Z.geb_le. intros H.
  apply not_true_iff_false. rewrite !andb_true_iff, !Z.leb_le, !Z.ltb_lt. lia.
Qed.

Lemma Draw_pixel dst r src sp op x y :
  Pix (draw.Draw dst r src sp op) x y =
  if In (Pt x y) (draw.clip (RGBA_Bounds dst) r (Bounds src) sp None ZP) then
    draw.blend op (Pix dst x y)
      (At src (GoInt.add (X sp) (GoInt.sub x (X (Min r))))
              (GoInt.add (Y sp) (GoInt.sub y (Y (Min r)))))
      draw.m
  else Pix dst x y.
Proof.
  unfold draw.Draw, draw.DrawMask. cbn [fmap option_fmap option_map].
  destruct (Empty _) eqn:E; [| reflexivity].
  now rewrite (Empty_not_In _ _ E).
Qed.

(** ** C4: the border layer *)

Lemma offset_on_canvas src dest :
  RGBA_Rect dest = canvasRect ->
  centerImageOnCanvas_offset src dest =
  Pt (GoInt.div (GoInt.sub 200 (Dx (Bounds src))) 2)
     (GoInt.div (GoInt.sub 200 (Dy (Bounds src))) 2).
Proof.
  intros H. unfold centerImageOnCanvas_offset, RGBA_Bounds. rewrite H. reflexivity.
Qed.

Lemma offset_on_canvas_quot src dest :
  RGBA_Rect dest = canvasRect ->
  0 <= Dx (Bounds src) -> 0 <= Dy (Bounds src) ->
  centerImageOnCanvas_offset src dest =
  Pt (Z.quot (200 - Dx (Bounds src)) 2) (Z.quot (200 - Dy (Bounds src)) 2).
Proof.
  intros H Hw Hh. rewrite (offset_on_canvas _ _ H).
  pose proof (Dx_range (Bounds src)). pose proof (Dy_range (Bounds src)).
  assert (R200 : GoInt.in_range 200)
    by (unfold GoInt.in_range, GoInt.min_int, GoInt.max_int; lia).
  rewrite !half_difference by (apply difference_in_range; try assumption; lia).
  reflexivity.
Qed.

(** The rectangle of the gear border, with the offset written out. *)
Ltac border_offset :=
  match goal with
  | |- context [centerImageOnCanvas_offset ?b ?c] =>
      rewrite (offset_on_canvas b c) by (rewrite !Draw_Rect; reflexivity)
  end; reflexivity.

Ltac border_offset_quot Hw Hh :=
  match goal with
  | |- context [centerImageOnCanvas_offset ?b ?c] =>
      rewrite (offset_on_canvas_quot b c) by
        (first [rewrite !Draw_Rect; reflexivity | exact Hw | exact Hh])
  end; reflexivity.

(** C4. When the fonts, the character image and the border image load: the
    border image is the one at [assets/gear/N.png], N the decimal gear
    level, when the gear level is below 13, and the one at
    [assets/relics/F.png], F the character's affiliation, otherwise. It is
    opened right after the character image has been placed on the canvas
    and drawn with [draw.Over] on that canvas, whose bounds are
    (0,0)-(200,200). Below 13 it is drawn from its own origin on its own
    bounds moved by the centering offset, which is half of 200 minus its
    width and half of 200 minus its height in Go's integer arithmetic, that
    is the quotients of (200 - width) and (200 - height) by 2 truncated
    toward zero when its sizes are not negative. Otherwise it is drawn on
    the full bounds of the canvas, from the point (0,0). Each pixel of the
    clipped rectangle becomes the border pixel blended over the canvas pixel
    and every other pixel is kept; the result is the canvas that the next
    draw receives. *)
Theorem border_layer host portrait charData small large chr brd :
  outcome (loadFont host fontPath 18) = Ok small ->
  outcome (loadFont host fontPath 24) = Ok large ->
  outcome (loadImage host ("assets/characters/" +:+ imgSrc charData)) = Ok chr ->
  outcome (loadImage host (borderPath portrait charData)) = Ok brd ->
  exists canvas r sp post,
    outcome (placeImageOnCanvas chr) = Ok canvas /\
    RGBA_Bounds canvas = Rect (Pt 0 0) (Pt 200 200) /\
    trace (buildPortrait host portrait charData) =
      ([EvReadFile fontPath; EvReadFile fontPath;
        EvOpen ("assets/characters/" +:+ imgSrc charData)]
       ++ trace (placeImageOnCanvas chr)
       ++ [EvOpen (borderPath portrait charData);
           EvDraw canvas r brd sp draw.Over]
       ++ post)%list /\
    (GearLevel portrait < 13 ->
     borderPath portrait charData =
       "assets/gear/" +:+ strconv.Itoa (GearLevel portrait) +:+ ".png" /\
     r = Add (Bounds brd) (centerImageOnCanvas_offset brd canvas) /\
     r = Add (Bounds brd)
           (Pt (GoInt.div (GoInt.sub 200 (Dx (Bounds brd))) 2)
               (GoInt.div (GoInt.sub 200 (Dy (Bounds brd))) 2)) /\
     (0 <= Dx (Bounds brd) -> 0 <= Dy (Bounds brd) ->
      r = Add (Bounds brd)
            (Pt (Z.quot (200 - Dx (Bounds brd)) 2)
                (Z.quot (200 - Dy (Bounds brd)) 2))) /\
     sp = Min (Bounds brd)) /\
    (13 <= GearLevel portrait ->
     borderPath portrait charData =
       "assets/relics/" +:+ Affiliation charData +:+ ".png" /\
     r = RGBA_Bounds canvas /\ sp = Pt 0 0) /\
    (forall x y,
       Pix (draw.Draw canvas r brd sp draw.Over) x y =
       if In (Pt x y) (draw.clip (RGBA_Bounds canvas) r (Bounds brd) sp None ZP)
       then draw.blend draw.Over (Pix canvas x y)
              (At brd (GoInt.add (X sp) (GoInt.sub x (X (Min r))))
                      (GoInt.add (Y sp) (GoInt.sub y (Y (Min r)))))
              draw.m
       else Pix canvas x y) /\
    (forall lvl,
       outcome (loadImage host "assets/badges/level.png") = Ok lvl ->
       exists post',
         post = EvOpen "assets/badges/level.png"
                :: EvDraw (draw.Draw canvas r brd sp draw.Over)
                     (Add (Bounds lvl) (Pt 75 128)) lvl ZP draw.Over
                :: post').
Proof.
  unfold borderPath. intros Hs Hl Hc Hb. revert Hs Hl Hc Hb.
  build_cases host portrait charData; intros Hs Hl Hc Hb; try discriminate;
    injection Hc as <-; injection Hb as <-;
    (eexists _, _, _, _; split; [reflexivity |];
     split; [unfold RGBA_Bounds; rewrite !Draw_Rect; reflexivity |];
     split; [reflexivity |];
     apply Z.ltb_lt in Egear || apply Z.ltb_ge in Egear;
     split;
     [ intros ?; try lia;
       (split; [reflexivity |]); (split; [reflexivity |]);
       (split; [border_offset |]);
       (split; [intros Hw Hh; border_offset_quot Hw Hh | reflexivity]) |];
     split; [intros ?; try lia; repeat split |];
     split; [intros x y; apply Draw_pixel |];
     intros lvl' Hv; try discriminate Hv; injection Hv as <-; eexists; reflexivity).
Qed.

Lemma border_layer_witness :
  exists canvas r sp post,
    trace (buildPortrait Demo.host (MkPortrait "darth_vader" 1 0 0 0)
             Demo.darth_vader) =
      ([EvReadFile fontPath; EvReadFile fontPath;
        EvOpen "assets/characters/darth_vader.png"]
       ++ trace (placeImageOnCanvas (Demo.flat 128 128 Demo.grey))
       ++ [EvOpen "assets/gear/1.png";
           EvDraw canvas r (Demo.flat 180 170 Transparent) sp draw.Over]
       ++ post)%list /\
    r = Rect (Pt 10 15) (Pt 190 185) /\ sp = Pt 0 0.
Proof.
  destruct (border_layer Demo.host (MkPortrait "darth_vader" 1 0 0 0)
              Demo.darth_vader (Demo.boxFace 18) (Demo.boxFace 24)
              (Demo.flat 128 128 Demo.grey) (Demo.flat 180 170 Transparent)
              eq_refl eq_refl eq_refl eq_refl)
    as (canvas & r & sp & post & _ & _ & Htrace & Hgear & _).
  destruct (Hgear ltac:(cbn; lia)) as (_ & _ & _ & Hr & Hsp).
  exists canvas, r, sp, post. split; [exact Htrace |]. split.
  - rewrite Hr; [reflexivity | vm_compute; discriminate | vm_compute; discriminate].
  - rewrite Hsp. reflexivity.
Defined.

(** ** Pixels outside the rectangle of a draw are kept *)

Lemma In_ZR p : In p ZR = false.
Proof.
  unfold In, ZR, ZP. cbn [Min Max X Y].
  apply not_true_iff_false. rewrite !andb_true_iff, !Z.leb_le, !Z.ltb_lt. lia.
Qed.

Lemma In_spec p r :
  In p r = true <->
  X (Min r) <= X p < X (Max r) /\ Y (Min r) <= Y p < Y (Max r).
Proof. unfold In. rewrite !andb_true_iff, !Z.leb_le, !Z.ltb_lt. lia. Qed.

Lemma In_Intersect p r s :
  In p (Intersect r s) = true -> In p r = true /\ In p s = true.
Proof.
  unfold Intersect. cbv zeta. destruct (Empty _).
  - rewrite In_ZR. discriminate.
  - rewrite !In_spec. cbn [Min Max X Y].
    repeat match goal with
      | |- context [Z.gtb ?a ?b] => rewrite (Z.gtb_ltb a b)
      | |- context [Z.ltb ?a ?b] => destruct (Z.ltb_spec a b)
      end; lia.
Qed.

Lemma clip_within dstB r srcB sp maskB mp p :
  In p (draw.clip dstB r srcB sp maskB mp) = true -> In p r = true.
Proof.
  unfold draw.clip. cbv zeta. destruct maskB as [mb |]; intros H.
  - apply In_Intersect in H as [H _]. apply In_Intersect in H as [H _].
    now apply In_Intersect in H as [H _].
  - apply In_Intersect in H as [H _]. now apply In_Intersect in H as [H _].
Qed.

Lemma DrawMask_outside dst r src sp mask mp op x y :
  In (Pt x y) r = false ->
  Pix (draw.DrawMask dst r src sp mask mp op) x y = Pix dst x y.
Proof.
  intros Hout. unfold draw.DrawMask. cbv zeta.
  destruct (Empty _); [reflexivity |]. cbn [Pix].
  destruct (In (Pt x y) (draw.clip _ _ _ _ _ _)) eqn:E; [| reflexivity].
  apply clip_within in E. congruence.
Qed.

Lemma Draw_outside dst r src sp op x y :
  In (Pt x y) r = false -> Pix (draw.Draw dst r src sp op) x y = Pix dst x y.
Proof. apply DrawMask_outside. Qed.

Lemma DrawRunes_outside f src x y cs : forall dst dot prevC,
  (forall r, List.In r (font.glyph_rects f dot prevC cs) -> In (Pt x y) r = false) ->
  Pix (font.DrawRunes f src dst dot prevC cs) x y = Pix dst x y.
Proof.
  induction cs as [| c cs IH]; intros dst dot prevC H;
    cbn [font.DrawRunes font.glyph_rects] in *.
  - reflexivity.
  - destruct (font.Face_Glyph f _ c) as [g |].
    + rewrite IH.
      * apply DrawMask_outside. apply H. now left.
      * intros r Hr. apply H. now right.
    + now apply IH.
Qed.

Lemma DrawString_outside dst src f dot s x y :
  (forall r, List.In r (text_rects f dot s) -> In (Pt x y) r = false) ->
  Pix (font.DrawString dst src f dot s) x y = Pix dst x y.
Proof. apply DrawRunes_outside. Qed.

Lemma outside_of_within r outer p :
  within r outer -> In p outer = false -> In p r = false.
Proof.
  intros Hw Hout. destruct (In p r) eqn:E; [| reflexivity].
  apply Hw in E. congruence.
Qed.

Lemma Ok_inj {A} (a b : A) : Ok a = Ok b -> a = b.
Proof. congruence. Qed.

(** ** C8: a request without badges and a request with zetas *)

(** C8, as the code has it. Two requests that differ only in [zetas], 0 in
    the first and positive in the second, both without omicrons, and whose
    builds succeed on the same host. The first build opens neither badge
    file, draws four images (the clear, the character, the border, the level
    badge) and the single text 85. The second image is the first one on
    which the zeta badge is drawn at its own bounds moved to (18,100) and
    then the count text; so the two images agree at every pixel outside the
    rectangle of the badge image and the rectangles of the glyphs. When the
    badge rectangle and the glyph rectangles lie in the 60x60 region at
    (18,100), the images agree at every pixel outside the badge regions. *)
Theorem badge_layers_frame host id g rl z charData imgA imgB :
  0 < z ->
  outcome (buildPortrait host (MkPortrait id g rl 0 0) charData) = Ok imgA ->
  outcome (buildPortrait host (MkPortrait id g rl z 0) charData) = Ok imgB ->
  let trA := trace (buildPortrait host (MkPortrait id g rl 0 0) charData) in
  (~ List.In "assets/badges/zeta.png" (files_touched trA) /\
   ~ List.In "assets/badges/omicron.png" (files_touched trA) /\
   draw_count trA = 4%nat /\
   map snd (drawn_strings trA) = ["85"])
  /\
  exists small zt,
    outcome (loadFont host fontPath 18) = Ok small /\
    outcome (loadImage host "assets/badges/zeta.png") = Ok zt /\
    let text := strconv.Itoa z in
    let dot := textDot (Pt 18 100) (Pt 60 60) small text 4 in
    let badgeRect := Add (Bounds zt) (Pt 18 100) in
    imgB = font.DrawString (draw.Draw imgA badgeRect zt (Pt 0 0) draw.Over)
             (Uniform White) small dot text /\
    (forall x y,
       In (Pt x y) badgeRect = false ->
       (forall r, List.In r (text_rects small dot text) -> In (Pt x y) r = false) ->
       Pix imgB x y = Pix imgA x y) /\
    (within badgeRect zetaRegion ->
     (forall r, List.In r (text_rects small dot text) -> within r zetaRegion) ->
     forall x y,
       In (Pt x y) zetaRegion = false -> In (Pt x y) omicronRegion = false ->
       Pix imgB x y = Pix imgA x y).
Proof.
  intros Hz. cbv zeta.
  assert (Hgt : (z >? 0) = true) by (apply Z.gtb_lt; lia).
  revert imgA imgB.
  unfold buildPortrait. cbn [GearLevel Zetas Omicrons]. rewrite Hgt.
  change (0 >? 0) with false.
  load_font host 18 e small Esmall; [intros; discriminate |].
  load_font host 24 e large Elarge; [intros; discriminate |].
  load_image host ("assets/characters/" +:+ imgSrc charData) e chr Echr;
    [intros; discriminate |].
  assert (Hframe : forall (a : RGBA) (zt : Image),
    let text := strconv.Itoa z in
    let dot := textDot (Pt 18 100) (Pt 60 60) small text 4 in
    let badgeRect := Add (Bounds zt) (Pt 18 100) in
    let b := font.DrawString (draw.Draw a badgeRect zt (Pt 0 0) draw.Over)
               (Uniform White) small dot text in
    (forall x y,
       In (Pt x y) badgeRect = false ->
       (forall r, List.In r (text_rects small dot text) -> In (Pt x y) r = false) ->
       Pix b x y = Pix a x y) /\
    (within badgeRect zetaRegion ->
     (forall r, List.In r (text_rects small dot text) -> within r zetaRegion) ->
     forall x y,
       In (Pt x y) zetaRegion = false -> In (Pt x y) omicronRegion = false ->
       Pix b x y = Pix a x y)).
  { intros a zt text dot badgeRect b.
    assert (F : forall x y,
       In (Pt x y) badgeRect = false ->
       (forall r, List.In r (text_rects small dot text) -> In (Pt x y) r = false) ->
       Pix b x y = Pix a x y).
    { intros x y Hb Ht. unfold b. rewrite DrawString_outside by exact Ht.
      now apply Draw_outside. }
    split; [exact F |]. intros Wb Wt x y Hzr _. apply F.
    - now apply (outside_of_within _ _ _ Wb).
    - intros r Hr. now apply (outside_of_within _ _ _ (Wt r Hr)). }
  destruct (g <? 13) eqn:Egear.
  - load_image host ("assets/gear/" +:+ strconv.Itoa g +:+ ".png") e brd Ebrd;
      [intros; discriminate |].
    load_image host "assets/badges/level.png" e lvl Elvl; [intros; discriminate |].
    load_image host "assets/badges/zeta.png" e zt Ezt; [intros; discriminate |].
    intros imgA imgB EA EB. apply Ok_inj in EA, EB. subst imgA imgB.
    split.
    + cbn [files_touched drawn_strings draw_count omap list_omap List.filter length map snd].
      repeat split; try reflexivity.
      all: cbn; intros H; repeat (destruct H as [H | H]; [discriminate H |]); exact H.
    + exists small, zt. split; [reflexivity |]. split; [reflexivity |].
      split; [reflexivity |]. apply Hframe.
  - load_image host ("assets/relics/" +:+ Affiliation charData +:+ ".png") e brd Ebrd;
      [intros; discriminate |].
    load_image host "assets/badges/level.png" e lvl Elvl; [intros; discriminate |].
    load_image host "assets/badges/zeta.png" e zt Ezt; [intros; discriminate |].
    intros imgA imgB EA EB. apply Ok_inj in EA, EB. subst imgA imgB.
    split.
    + cbn [files_touched drawn_strings draw_count omap list_omap List.filter length map snd].
      repeat split; try reflexivity.
      all: cbn; intros H; repeat (destruct H as [H | H]; [discriminate H |]); exact H.
    + exists small, zt. split; [reflexivity |]. split; [reflexivity |].
      split; [reflexivity |]. apply Hframe.
Qed.

Lemma badge_layers_frame_witness :
  match outcome (buildPortrait Demo.host (MkPortrait "darth_vader" 12 0 0 0)
                   Demo.darth_vader),
        outcome (buildPortrait Demo.host (MkPortrait "darth_vader" 12 0 1 0)
                   Demo.darth_vader) with
  | Ok a, Ok b =>
      forall x y,
        In (Pt x y) zetaRegion = false -> In (Pt x y) omicronRegion = false ->
        Pix b x y = Pix a x y
  | _, _ => False
  end.
Proof.
  destruct (outcome (buildPortrait Demo.host (MkPortrait "darth_vader" 12 0 0 0)
                       Demo.darth_vader)) as [e1 | a] eqn:EA.
  { assert (H : error_of (outcome (buildPortrait Demo.host
                  (MkPortrait "darth_vader" 12 0 0 0) Demo.darth_vader)) = None)
      by (vm_compute; reflexivity).
    rewrite EA in H. discriminate H. }
  destruct (outcome (buildPortrait Demo.host (MkPortrait "darth_vader" 12 0 1 0)
                       Demo.darth_vader)) as [e2 | b] eqn:EB.
  { assert (H : error_of (outcome (buildPortrait Demo.host
                  (MkPortrait "darth_vader" 12 0 1 0) Demo.darth_vader)) = None)
      by (vm_compute; reflexivity).
    rewrite EB in H. discriminate H. }
  destruct (badge_layers_frame Demo.host "darth_vader" 12 0 1 Demo.darth_vader a b
              ltac:(lia) EA EB) as (_ & small & zt & Hs & Hzt & _ & _ & Hregion).
  change (Ok (Demo.boxFace 18) = Ok small) in Hs. apply Ok_inj in Hs. subst small.
  change (Ok (Demo.flat 60 60 Demo.red) = Ok zt) in Hzt. apply Ok_inj in Hzt. subst zt.
  apply Hregion.
  - change (Add (Bounds (Demo.flat 60 60 Demo.red)) (Pt 18 100))
      with (Rect (Pt 18 100) (Pt 78 160)).
    intros [px py]. rewrite !In_spec. unfold zetaRegion. cbn [Min Max X Y]. lia.
  - intros r Hr. vm_compute in Hr. destruct Hr as [<- | []].
    intros [px py]. rewrite !In_spec. unfold zetaRegion. cbn [Min Max X Y]. lia.
Defined.

(** The claim as written fails on a host whose zeta badge image is 100x100:
    the pixel (100,180) lies outside both badge regions, is transparent
    without zetas and red with one zeta. *)
Lemma badge_region_exceeded :
  In (Pt 100 180) zetaRegion = false /\
  In (Pt 100 180) omicronRegion = false /\
  portrait_pixel (buildPortrait Demo.wideHost (MkPortrait "darth_vader" 12 0 0 0)
                    Demo.darth_vader) 100 180 = Some (Color8 0 0 0 0) /\
  portrait_pixel (buildPortrait Demo.wideHost (MkPortrait "darth_vader" 12 0 1 0)
                    Demo.darth_vader) 100 180 = Some (Color8 255 0 0 255).
Proof. repeat split; vm_compute; reflexivity. Qed.

(** * Further properties of the program *)

(** ** [getIntFromQuery] and the decimal texts *)

Lemma digits_acc d : forall acc,
  strconv.digits (Z.pos acc) (NilEmpty.string_of_uint d) =
  Some (Z.pos (Pos.of_uint_acc d acc)).
Proof.
  induction d; intros acc; cbn [NilEmpty.string_of_uint strconv.digits Pos.of_uint_acc];
    try reflexivity;
    match goal with
    | |- context [strconv.digit_of ?c] =>
        change (strconv.digit_of c) with (Some (Z.of_N (N_of_ascii c) - 48))
    end; cbn [N_of_ascii N_of_digits Z.of_N]; cbv beta iota;
    match goal with
    | |- strconv.digits ?a _ = Some (Z.pos (Pos.of_uint_acc _ ?b)) =>
        replace a with (Z.pos b) by lia
    end; apply IHd.
Qed.

Lemma digits_of_uint d :
  strconv.digits 0 (NilEmpty.string_of_uint d) = Some (Z.of_N (Pos.of_uint d)).
Proof.
  induction d; cbn [NilEmpty.string_of_uint strconv.digits Pos.of_uint];
    try reflexivity;
    match goal with
    | |- context [strconv.digit_of ?c] =>
        change (strconv.digit_of c) with (Some (Z.of_N (N_of_ascii c) - 48))
    end; cbn [N_of_ascii N_of_digits Z.of_N]; cbv beta iota;
    [ exact IHd | .. ];
    match goal with
    | |- strconv.digits ?a _ = Some (Z.pos (Pos.of_uint_acc _ ?b)) =>
        change a with (Z.pos b)
    end; apply digits_acc.
Qed.

Lemma digits_to_uint p :
  strconv.digits 0 (NilEmpty.string_of_uint (Pos.to_uint p)) = Some (Z.pos p).
Proof. rewrite digits_of_uint, DecimalPos.Unsigned.of_to. reflexivity. Qed.

(** The text of a positive number starts with a digit and is not empty. *)
Lemma to_uint_text p :
  exists c rest,
    NilZero.string_of_uint (Pos.to_uint p) = String c rest /\
    NilEmpty.string_of_uint (Pos.to_uint p) = String c rest /\
    Ascii.eqb c "-" = false /\ Ascii.eqb c "+" = false.
Proof.
  pose proof (DecimalPos.Unsigned.to_uint_nonnil p) as Hn.
  destruct (Pos.to_uint p); [congruence | ..];
    cbn [NilZero.string_of_uint NilEmpty.string_of_uint];
    eexists _, _; repeat split.
Qed.

(** [strconv.Atoi] reads back what [strconv.Itoa] writes. *)
Lemma Atoi_Itoa n :
  GoInt.in_range n -> strconv.Atoi (strconv.Itoa n) = Some n.
Proof.
  unfold GoInt.in_range. intros Hr.
  assert (Hb : (GoInt.min_int <=? n) && (n <=? GoInt.max_int) = true).
  { apply andb_true_iff. split; apply Z.leb_le; lia. }
  unfold strconv.Itoa. destruct n as [| p | p].
  - reflexivity.
  - cbn [Z.to_int NilZero.string_of_int].
    destruct (to_uint_text p) as (c & rest & E0 & E & Hm & Hp).
    rewrite E0. unfold strconv.Atoi. rewrite Hm, Hp. cbn [orb].
    rewrite <- E, digits_to_uint. now rewrite Hb.
  - cbn [Z.to_int NilZero.string_of_int].
    destruct (to_uint_text p) as (c & rest & E0 & E & Hm & Hp).
    rewrite E0. unfold strconv.Atoi.
    change (Ascii.eqb "-" "-") with true. cbn [orb].
    rewrite <- E, digits_to_uint. change (- Z.pos p) with (Z.neg p). now rewrite Hb.
Qed.

Lemma Atoi_range s n : strconv.Atoi s = Some n -> GoInt.in_range n.
Proof.
  unfold strconv.Atoi. destruct s as [| c rest]; [discriminate |].
  cbv zeta.
  destruct (if Ascii.eqb c "-" || Ascii.eqb c "+" then rest else String c rest);
    [discriminate |].
  destruct (strconv.digits 0 _) as [v |]; [| discriminate].
  destruct (_ && _) eqn:E; [| discriminate].
  intros H. injection H as <-. apply andb_true_iff in E as [E1 E2].
  apply Z.leb_le in E1, E2. split; assumption.
Qed.

(** X1. What [getIntFromQuery] returns: it panics exactly when the key has
    an empty list of values; a value it returns fits an [int]; with an error
    the value is 0 and the error quotes the key and the first value; only
    the first value of the key counts. *)
Theorem getIntFromQuery_result q key :
  (getIntFromQuery q key = Panicked <-> q !! key = Some []) /\
  (forall v e, getIntFromQuery q key = Returned (v, e) ->
     GoInt.in_range v /\
     (forall msg, e = Some msg ->
        v = 0 /\
        exists v0 rest, q !! key = Some (v0 :: rest) /\
          msg = "parameter '" +:+ key +:+ "' should be an integer, got '" +:+
                v0 +:+ "'")) /\
  (forall q' v0 rest rest',
     q !! key = Some (v0 :: rest) -> q' !! key = Some (v0 :: rest') ->
     getIntFromQuery q' key = getIntFromQuery q key).
Proof.
  assert (R0 : GoInt.in_range 0) by (unfold GoInt.in_range, GoInt.min_int, GoInt.max_int; lia).
  unfold getIntFromQuery. split; [| split].
  - destruct (q !! key) as [[| v0 rest] |]; [tauto | | split; discriminate].
    destruct (String.length v0 =? 0)%nat; [split; discriminate |].
    destruct (strconv.Atoi v0); split; discriminate.
  - intros v e. destruct (q !! key) as [[| v0 rest] |] eqn:E.
    + discriminate.
    + destruct (String.length v0 =? 0)%nat.
      * intros H. injection H as <- <-. split; [exact R0 | discriminate].
      * destruct (strconv.Atoi v0) as [n |] eqn:Ea; intros H; injection H as <- <-.
        -- split; [exact (Atoi_range _ _ Ea) | discriminate].
        -- split; [exact R0 |]. intros msg Hm. injection Hm as <-. eauto.
    + intros H. injection H as <- <-. split; [exact R0 | discriminate].
  - intros q' v0 rest rest' -> ->. reflexivity.
Qed.

Lemma getIntFromQuery_result_witness :
  getIntFromQuery (Demo.query "12" [("zetas", ["2"; "x"])]) "zetas" =
  getIntFromQuery (Demo.query "12" [("zetas", ["2"])]) "zetas".
Proof.
  exact (proj2 (proj2 (getIntFromQuery_result (Demo.query "12" [("zetas", ["2"])])
                         "zetas"))
           (Demo.query "12" [("zetas", ["2"; "x"])]) "2" [] ["x"] eq_refl eq_refl).
Defined.

(** X2. A parameter whose first value is the decimal text of an [int], as
    [strconv.Itoa] writes it, is read back as that integer without error. *)
Theorem getIntFromQuery_reads_Itoa q key n rest :
  GoInt.in_range n ->
  q !! key = Some (strconv.Itoa n :: rest) ->
  getIntFromQuery q key = Returned (n, None).
Proof.
  intros Hr Hq. apply getIntFromQuery_number.
  exists (strconv.Itoa n). split; [now exists rest | now apply Atoi_Itoa].
Qed.

Lemma getIntFromQuery_reads_Itoa_witness :
  getIntFromQuery (Demo.query (strconv.Itoa 13) []) "gear_level" = Returned (13, None).
Proof.
  apply (getIntFromQuery_reads_Itoa _ _ 13 []).
  - unfold GoInt.in_range, GoInt.min_int, GoInt.max_int. lia.
  - reflexivity.
Defined.

(** ** The handler as a whole *)

Lemma error_value_zero q key v msg :
  getIntFromQuery q key = Returned (v, Some msg) -> v = 0.
Proof.
  unfold getIntFromQuery. destruct (q !! key) as [[| v0 rest] |]; try congruence.
  destruct (String.length v0 =? 0)%nat; [congruence |].
  destruct (strconv.Atoi v0); congruence.
Qed.

Lemma panic_empty_values q key :
  getIntFromQuery q key = Panicked -> q !! key = Some [].
Proof.
  unfold getIntFromQuery. destruct (q !! key) as [[| v0 rest] |]; try congruence.
  destruct (String.length v0 =? 0)%nat; [congruence |].
  destruct (strconv.Atoi v0); congruence.
Qed.

(** Every run of the handler ends in one of three ways: an error reply with
    status 400 or 405 and no call, a panic on a key without values, or the
    portrait of a valid request handed to [servePortrait]. *)
Lemma handler_cases host r :
  (exists msg code,
     createPortraitHandler host http.fresh r = reply (http.Error http.fresh msg code) /\
     (code = 400 \/ code = 405)) \/
  (createPortraitHandler host http.fresh r = ([], Panicked) /\
   exists key, List.In key intKeys /\ http.Query r !! key = Some []) \/
  (exists p char,
     valid_portrait p char /\
     createPortraitHandler host http.fresh r = servePortrait host http.fresh p char).
Proof.
  unfold createPortraitHandler.
  destruct (negb (String.eqb (http.Method r) "GET")); [left; eauto |].
  destruct (supportedCharacters !! _) as [char |] eqn:Hc; [| left; eauto].
  destruct (getIntFromQuery _ "gear_level") as [| [g e1]] eqn:Hg.
  { right; left. split; [reflexivity |]. exists "gear_level".
    split; [cbn; auto | now apply panic_empty_values]. }
  destruct e1 as [m1 |]; [left; eauto |]. cbn [not_nil orb].
  destruct (Z.ltb_spec g 1); [left; eauto |].
  rewrite (Z.gtb_ltb g 13). destruct (Z.ltb_spec 13 g); [left; eauto |]. cbn [orb].
  destruct (getIntFromQuery _ "relic_level") as [| [rl e2]] eqn:Hr.
  { right; left. split; [reflexivity |]. exists "relic_level".
    split; [cbn; auto | now apply panic_empty_values]. }
  assert (Hrl : g <> 13 ->
                negb (g =? 13) && negb (rl =? 0) && negb (not_nil e2) = false -> rl = 0).
  { intros Hne. destruct (Z.eqb_spec g 13); [lia |]. cbn [negb andb].
    destruct (Z.eqb_spec rl 0); [auto |]. cbn [negb andb].
    destruct e2 as [m2 |]; [intros _; exact (error_value_zero _ _ _ _ Hr) | discriminate]. }
  destruct (negb (g =? 13) && negb (rl =? 0) && negb (not_nil e2)) eqn:C1;
    [left; eauto |].
  destruct ((g =? 13) && ((rl <? 1) || (rl >? 9))) eqn:C2; [left; eauto |].
  destruct (getIntFromQuery _ "zetas") as [| [z e3]] eqn:Hz.
  { right; left. split; [reflexivity |]. exists "zetas".
    split; [cbn; auto | now apply panic_empty_values]. }
  destruct ((z <? 0) || (z >? maxZetas char)) eqn:C3; [left; eauto |].
  destruct (getIntFromQuery _ "omicrons") as [| [o e4]] eqn:Ho.
  { right; left. split; [reflexivity |]. exists "omicrons".
    split; [cbn; auto 6 | now apply panic_empty_values]. }
  destruct ((o <? 0) || (o >? maxOmicrons char)) eqn:C4; [left; eauto |].
  right; right. eexists _, char. split; [| reflexivity].
  unfold valid_portrait. cbn [portrait_Character GearLevel RelicLevel Zetas Omicrons].
  rewrite Z.gtb_ltb in C2, C3, C4.
  apply orb_false_iff in C3 as [C3a C3b]. apply orb_false_iff in C4 as [C4a C4b].
  apply Z.ltb_ge in C3a, C3b, C4a, C4b.
  repeat split; try assumption; try lia.
  all: try (intros Hne; now apply Hrl).
  all: intros ->; cbn [Z.eqb Pos.eqb andb] in C2;
    apply orb_false_iff in C2 as [Ca Cb]; apply Z.ltb_ge in Ca, Cb; lia.
Qed.

Lemma handler_serves host w r char p :
  serves r char p ->
  createPortraitHandler host w r = servePortrait host w p char.
Proof.
  intros (Hget & Hchar & Hid & Hlevels & Hz & Ho & Hzr & Hor).
  apply lenient_value_get in Hz as [ez Hz]. apply lenient_value_get in Ho as [eo Ho].
  rewrite (handler_validated host w r char Hget Hchar _ _ _ ez _ eo Hlevels Hz Hzr Ho Hor).
  rewrite <- Hid. now destruct p.
Qed.

(** X3. A request whose method is not GET is answered 405 with a fixed
    text, whatever its query, and no call is made. *)
Theorem method_not_allowed host r :
  http.Method r <> "GET" ->
  createPortraitHandler host http.fresh r =
  reply (http.Error http.fresh "Only GET method is allowed" 405) /\
  served_status (createPortraitHandler host http.fresh r) = Some 405 /\
  fst (createPortraitHandler host http.fresh r) = [].
Proof.
  intros Hm. unfold createPortraitHandler.
  apply String.eqb_neq in Hm. rewrite Hm. repeat split.
Qed.

Lemma method_not_allowed_witness :
  served_status
    (createPortraitHandler Demo.host http.fresh
       (http.MkRequest "POST" (Demo.query "13" [("relic_level", ["5"])]))) = Some 405.
Proof.
  apply (method_not_allowed Demo.host
           (http.MkRequest "POST" (Demo.query "13" [("relic_level", ["5"])]))).
  discriminate.
Defined.

(** X4. A GET request whose [char] is not [darth_vader], the one entry of
    the catalog, or that has no [char], is answered 400 with a text that
    quotes the identifier, and no call is made. *)
Theorem unsupported_character host r :
  http.Method r = "GET" ->
  http.Get (http.Query r) "char" <> "darth_vader" ->
  createPortraitHandler host http.fresh r =
  badRequest ("Character '" +:+ http.Get (http.Query r) "char" +:+
              "' is not supported by this API") /\
  served_status (createPortraitHandler host http.fresh r) = Some 400 /\
  fst (createPortraitHandler host http.fresh r) = [].
Proof.
  intros Hget Hid. unfold createPortraitHandler. rewrite Hget.
  change (negb (String.eqb "GET" "GET")) with false. cbv iota.
  destruct (supportedCharacters !! _) as [char |] eqn:Hc.
  - apply supported_character in Hc as [Hc _]. congruence.
  - repeat split.
Qed.

Lemma unsupported_character_witness :
  createPortraitHandler Demo.host http.fresh (http.MkRequest "GET" ∅) =
  badRequest "Character '' is not supported by this API".
Proof.
  refine (proj1 (unsupported_character Demo.host (http.MkRequest "GET" ∅) eq_refl _)).
  vm_compute. discriminate.
Defined.

(** X5. When none of the four integer parameters has an empty list of
    values, as for every query that [r.URL.Query()] returns, the handler
    does not panic and its answer has status 200, 400, 405 or 500. *)
Theorem handler_answers host r :
  (forall key, List.In key intKeys -> http.Query r !! key <> Some []) ->
  exists w,
    snd (createPortraitHandler host http.fresh r) = Returned w /\
    (http.StatusCode w = 200 \/ http.StatusCode w = 400 \/
     http.StatusCode w = 405 \/ http.StatusCode w = 500).
Proof.
  intros Hwf.
  destruct (handler_cases host r)
    as [(msg & code & -> & Hcode) | [[_ (key & Hk & He)] | (p & char & _ & ->)]].
  - eexists. split; [reflexivity |]. rewrite Error_fresh. cbn. lia.
  - now destruct (Hwf key Hk).
  - destruct (servePortrait_returns host http.fresh p char) as [w E].
    exists w. rewrite E. split; [reflexivity |].
    destruct (servePortrait_status _ _ _ _ _ E); auto.
Qed.

Lemma handler_answers_witness :
  exists w,
    snd (createPortraitHandler Demo.host http.fresh
           (Demo.get (Demo.query "abc" []))) = Returned w /\
    (http.StatusCode w = 200 \/ http.StatusCode w = 400 \/
     http.StatusCode w = 405 \/ http.StatusCode w = 500).
Proof.
  apply (handler_answers Demo.host (Demo.get (Demo.query "abc" []))).
  intros key [<- | [<- | [<- | [<- | []]]]]; vm_compute; discriminate.
Defined.

(** X6. Validation comes before every file access: an answer with status
    400 or 405 is given without any call, and an answer with status 200 or
    500 is given only after the builder has run. *)
Theorem client_errors_make_no_call host r :
  (served_status (createPortraitHandler host http.fresh r) = Some 400 \/
   served_status (createPortraitHandler host http.fresh r) = Some 405 ->
   fst (createPortraitHandler host http.fresh r) = []) /\
  (served_status (createPortraitHandler host http.fresh r) = Some 200 \/
   served_status (createPortraitHandler host http.fresh r) = Some 500 ->
   fst (createPortraitHandler host http.fresh r) <> []).
Proof.
  destruct (handler_cases host r)
    as [(msg & code & -> & Hcode) | [[-> _] | (p & char & _ & ->)]].
  - split; [reflexivity |]. unfold served_status. rewrite Error_fresh. cbn.
    intros [H | H]; injection H as H; lia.
  - split; [reflexivity |]. intros [H | H]; discriminate H.
  - destruct (servePortrait_returns host http.fresh p char) as [w E].
    rewrite E. unfold served_status. cbn [fst snd]. split.
    + destruct (servePortrait_status _ _ _ _ _ E) as [-> | ->];
        intros [H | H]; discriminate H.
    + intros _. apply buildPortrait_trace_not_nil.
Qed.

Lemma client_errors_make_no_call_witness :
  fst (createPortraitHandler Demo.host http.fresh
         (Demo.get (Demo.query "13" [("relic_level", ["10"])]))) = [].
Proof.
  apply (proj1 (client_errors_make_no_call Demo.host
                  (Demo.get (Demo.query "13" [("relic_level", ["10"])])))).
  left. vm_compute. reflexivity.
Defined.



Lemma getIntFromQuery_ext q q' key :
  q !! key = q' !! key -> getIntFromQuery q key = getIntFromQuery q' key.
Proof. intros H. unfold getIntFromQuery. now rewrite H. Qed.

(** X8. The answer depends on the method and on five parameters only:
    [char] and the four integer parameters. Two queries that give the same
    values to these get the same answer and the same calls, whatever else
    they carry. *)
Theorem handler_reads_five_parameters host w m q q' :
  (forall key, List.In key ("char" :: intKeys) -> q !! key = q' !! key) ->
  createPortraitHandler host w (http.MkRequest m q) =
  createPortraitHandler host w (http.MkRequest m q').
Proof.
  intros H. unfold createPortraitHandler. cbn [http.Method http.Query].
  assert (Hc : http.Get q "char" = http.Get q' "char").
  { unfold http.Get. rewrite (H "char") by (cbn; auto). reflexivity. }
  rewrite Hc.
  rewrite (getIntFromQuery_ext q q' "gear_level") by (apply H; cbn; auto).
  rewrite (getIntFromQuery_ext q q' "relic_level") by (apply H; cbn; auto).
  rewrite (getIntFromQuery_ext q q' "zetas") by (apply H; cbn; auto 6).
  rewrite (getIntFromQuery_ext q q' "omicrons") by (apply H; cbn; auto 6).
  reflexivity.
Qed.

Lemma handler_reads_five_parameters_witness :
  createPortraitHandler Demo.host http.fresh
    (Demo.get (Demo.query "12" [("level", ["70"])])) =
  createPortraitHandler Demo.host http.fresh (Demo.get (Demo.query "12" [])).
Proof.
  apply (handler_reads_five_parameters Demo.host http.fresh "GET"
           (Demo.query "12" [("level", ["70"])]) (Demo.query "12" [])).
  intros key [<- | [<- | [<- | [<- | [<- | []]]]]]; vm_compute; reflexivity.
Defined.

(** X9. At gear 13 the relic level is checked and then not used: two GET
    requests for a character of the catalog, both with gear level 13 and a
    relic level in 1..9, with the same [zetas] and [omicrons], get the same
    answer and the same calls, whatever the two relic levels are. *)
Theorem relic_level_not_rendered host r r' char rl rl' :
  http.Method r = "GET" -> http.Method r' = "GET" ->
  supportedCharacters !! http.Get (http.Query r) "char" = Some char ->
  supportedCharacters !! http.Get (http.Query r') "char" = Some char ->
  parses_to (http.Query r) "gear_level" 13 ->
  parses_to (http.Query r') "gear_level" 13 ->
  parses_to (http.Query r) "relic_level" rl -> 1 <= rl <= 9 ->
  parses_to (http.Query r') "relic_level" rl' -> 1 <= rl' <= 9 ->
  http.Query r !! "zetas" = http.Query r' !! "zetas" ->
  http.Query r !! "omicrons" = http.Query r' !! "omicrons" ->
  createPortraitHandler host http.fresh r = createPortraitHandler host http.fresh r'.
Proof.
  intros Hget Hget' Hchar Hchar' Hg Hg' Hr Hrange Hr' Hrange' Hz Ho.
  apply getIntFromQuery_number in Hg, Hg', Hr, Hr'.
  rewrite (handler_enter host http.fresh r char Hget Hchar).
  rewrite (handler_enter host http.fresh r' char Hget' Hchar').
  rewrite Hg, Hg', Hr, Hr'.
  rewrite (getIntFromQuery_ext _ _ "zetas" Hz), (getIntFromQuery_ext _ _ "omicrons" Ho).
  cbn [not_nil orb]. zbools.
Qed.

Lemma relic_level_not_rendered_witness :
  createPortraitHandler Demo.host http.fresh
    (Demo.get (Demo.query "13" [("relic_level", ["1"])])) =
  createPortraitHandler Demo.host http.fresh
    (Demo.get (Demo.query "13" [("relic_level", ["9"])])).
Proof.
  refine (relic_level_not_rendered Demo.host
            (Demo.get (Demo.query "13" [("relic_level", ["1"])]))
            (Demo.get (Demo.query "13" [("relic_level", ["9"])]))
            Demo.darth_vader 1 9 eq_refl eq_refl eq_refl eq_refl _ _ _ _ _ _
            eq_refl eq_refl).
  - exists "13". split; [exists []; reflexivity | reflexivity].
  - exists "13". split; [exists []; reflexivity | reflexivity].
  - exists "1". split; [exists []; reflexivity | reflexivity].
  - lia.
  - exists "9". split; [exists []; reflexivity | reflexivity].
  - lia.
Defined.

(** ** The response of a served portrait *)

Lemma fold_Write_header chunks w :
  http.Header (fold_left http.Write chunks w) = http.Header w.
Proof.
  revert w. induction chunks as [| d chunks IH]; intros w; cbn [fold_left].
  - reflexivity.
  - rewrite IH. now destruct w as [h [c |] b].
Qed.

Lemma append_assoc (a b c : string) : (a +:+ b) +:+ c = a +:+ (b +:+ c).
Proof.
  induction a as [| x a IH]; [reflexivity |].
  change (String x ((a +:+ b) +:+ c) = String x (a +:+ (b +:+ c))). now f_equal.
Qed.

Lemma append_empty (a : string) : a +:+ "" = a.
Proof.
  induction a as [| x a IH]; [reflexivity |].
  change (String x (a +:+ "") = String x a). now f_equal.
Qed.

Lemma fold_Write_body chunks w :
  http.Body (fold_left http.Write chunks w) = http.Body w +:+ joined chunks.
Proof.
  revert w. induction chunks as [| d chunks IH]; intros w; cbn [fold_left joined fold_right].
  - now rewrite append_empty.
  - rewrite IH. fold (joined chunks).
    destruct w as [h [c |] b]; unfold http.Write, http.WriteHeader;
      cbn [http.Body http.Status http.Header]; apply append_assoc.
Qed.

(** X10. A request that passes every check, whose portrait is built and
    whose PNG encoding succeeds, is answered 200 with the content type
    [image/png]; the body is the bytes that the encoder wrote, in order, and
    the calls made are those of the builder. *)
Theorem portrait_served host r char p img chunks :
  serves r char p ->
  outcome (buildPortrait host p char) = Ok img ->
  png_Encode host img = (chunks, None) ->
  exists w,
    createPortraitHandler host http.fresh r =
    (trace (buildPortrait host p char), Returned w) /\
    http.StatusCode w = 200 /\
    http.Header w !! "Content-Type" = Some "image/png" /\
    http.Body w = joined chunks.
Proof.
  intros Hs Hb He. rewrite (handler_serves host http.fresh r char p Hs).
  unfold servePortrait. rewrite Hb, He. eexists. split; [reflexivity |].
  unfold http.StatusCode.
  rewrite fold_Write_status, fold_Write_header, fold_Write_body.
  repeat split. now destruct chunks.
Qed.

Lemma portrait_served_witness :
  exists w,
    createPortraitHandler Demo.host http.fresh
      (Demo.get (Demo.query "13" [("relic_level", ["5"]); ("zetas", ["3"]);
                                  ("omicrons", ["1"])])) =
    (trace (buildPortrait Demo.host (MkPortrait "darth_vader" 13 5 3 1)
              Demo.darth_vader), Returned w) /\
    http.StatusCode w = 200 /\
    http.Header w !! "Content-Type" = Some "image/png" /\
    http.Body w = "PNG".
Proof.
  destruct (outcome (buildPortrait Demo.host (MkPortrait "darth_vader" 13 5 3 1)
                       Demo.darth_vader)) as [e | img] eqn:E.
  { assert (H : error_of (outcome (buildPortrait Demo.host
                  (MkPortrait "darth_vader" 13 5 3 1) Demo.darth_vader)) = None)
      by (vm_compute; reflexivity).
    rewrite E in H. discriminate H. }
  refine (portrait_served Demo.host _ Demo.darth_vader
            (MkPortrait "darth_vader" 13 5 3 1) img ["PNG"] _ E eq_refl).
  repeat split; try reflexivity; cbn; try lia.
  - exists None. repeat split; try reflexivity; lia.
  - right. exists "3". split; [exists []; reflexivity | reflexivity].
  - right. exists "1". split; [exists []; reflexivity | reflexivity].
Defined.

(** X11. When the encoder fails on a built portrait: if it had written
    nothing, the answer is 500 with a plain text that carries the error;
    if it had written chunks, the status 200 and the content type
    [image/png] are already set and stay, and the error text is appended to
    the bytes written. *)
Theorem encoder_failure host r char p img chunks e :
  serves r char p ->
  outcome (buildPortrait host p char) = Ok img ->
  png_Encode host img = (chunks, Some e) ->
  exists w,
    createPortraitHandler host http.fresh r =
    (trace (buildPortrait host p char), Returned w) /\
    http.Body w =
    joined chunks +:+ ("Failed to encode image: " +:+ e) +:+ http.newline /\
    (chunks = [] ->
     http.StatusCode w = 500 /\
     http.Header w !! "Content-Type" = Some "text/plain; charset=utf-8") /\
    (chunks <> [] ->
     http.StatusCode w = 200 /\
     http.Header w !! "Content-Type" = Some "image/png").
Proof.
  intros Hs Hb He. rewrite (handler_serves host http.fresh r char p Hs).
  unfold servePortrait. rewrite Hb, He. eexists. split; [reflexivity |].
  destruct chunks as [| c chunks].
  - cbn [fold_left joined fold_right]. repeat split; try reflexivity; congruence.
  - set (w0 := http.Header_Set "Content-Type" "image/png" http.fresh).
    assert (Hst : http.Status (fold_left http.Write (c :: chunks) w0) = Some 200)
      by (rewrite fold_Write_status; reflexivity).
    assert (Hh : http.Header (fold_left http.Write (c :: chunks) w0) =
                 <["Content-Type" := "image/png"]> ∅)
      by (rewrite fold_Write_header; reflexivity).
    assert (Hbd : http.Body (fold_left http.Write (c :: chunks) w0) =
                  joined (c :: chunks))
      by (rewrite fold_Write_body; reflexivity).
    destruct (fold_left http.Write (c :: chunks) w0) as [h st b].
    cbn [http.Status http.Header http.Body] in Hst, Hh, Hbd. subst h st b.
    split; [reflexivity |]. split; [congruence |]. intros _. split; reflexivity.
Qed.

Lemma encoder_failure_witness :
  exists w,
    createPortraitHandler (Demo.failingEncoder [] Demo.host) http.fresh
      (Demo.get (Demo.query "12" [])) =
    (trace (buildPortrait (Demo.failingEncoder [] Demo.host)
              (MkPortrait "darth_vader" 12 0 0 0) Demo.darth_vader), Returned w) /\
    http.StatusCode w = 500.
Proof.
  destruct (outcome (buildPortrait (Demo.failingEncoder [] Demo.host)
                       (MkPortrait "darth_vader" 12 0 0 0) Demo.darth_vader))
    as [e | img] eqn:E.
  { assert (H : error_of (outcome (buildPortrait (Demo.failingEncoder [] Demo.host)
                  (MkPortrait "darth_vader" 12 0 0 0) Demo.darth_vader)) = None)
      by (vm_compute; reflexivity).
    rewrite E in H. discriminate H. }
  destruct (encoder_failure (Demo.failingEncoder [] Demo.host)
              (Demo.get (Demo.query "12" [])) Demo.darth_vader
              (MkPortrait "darth_vader" 12 0 0 0) img [] "write: broken pipe")
    as (w & Hw & _ & Hnone & _).
  - repeat split; try reflexivity; cbn; try lia.
    + exists None. repeat split; try reflexivity; lia.
    + left. split; [| reflexivity]. left. left. reflexivity.
    + left. split; [| reflexivity]. left. left. reflexivity.
  - exact E.
  - reflexivity.
  - exists w. split; [exact Hw | now apply Hnone].
Defined.

(** ** The canvas and the layers *)

Lemma cleared_pixel x y :
  Pix (draw.Draw (NewRGBA canvasRect) canvasRect (Uniform Transparent) ZP draw.Src) x y =
  Color8 0 0 0 0.
Proof. rewrite Draw_pixel. now destruct (In _ _). Qed.

(** X12. [placeImageOnCanvas] never fails. Its canvas has the bounds
    (0,0)-(200,200); every pixel outside the rectangle of the image moved by
    the centering offset is transparent black, and every pixel of that
    rectangle that is on the canvas is the image pixel blended over
    transparent black. *)
Theorem placeImageOnCanvas_canvas src :
  exists canvas,
    outcome (placeImageOnCanvas src) = Ok canvas /\
    RGBA_Bounds canvas = Rect (Pt 0 0) (Pt 200 200) /\
    let r := Add (Bounds src) (placeImageOnCanvas_offset src) in
    (forall x y, In (Pt x y) r = false -> Pix canvas x y = Color8 0 0 0 0) /\
    (forall x y,
       In (Pt x y) (draw.clip canvasRect r (Bounds src) (Min (Bounds src)) None ZP) = true ->
       Pix canvas x y =
       draw.blend draw.Over (Color8 0 0 0 0)
         (At src (GoInt.add (X (Min (Bounds src))) (GoInt.sub x (X (Min r))))
                 (GoInt.add (Y (Min (Bounds src))) (GoInt.sub y (Y (Min r)))))
         draw.m).
Proof.
  eexists. split; [reflexivity |]. split.
  { unfold RGBA_Bounds. rewrite !Draw_Rect. reflexivity. }
  cbv zeta. split.
  - intros x y Hout. rewrite Draw_outside; [apply cleared_pixel |].
    exact Hout.
  - intros x y Hin. rewrite Draw_pixel.
    change (RGBA_Bounds (draw.Draw (NewRGBA (Rect (Pt 0 0) (Pt 200 200)))
               (RGBA_Bounds (NewRGBA (Rect (Pt 0 0) (Pt 200 200))))
               (Uniform Transparent) ZP draw.Src)) with canvasRect.
    change (Pt (X (placeImageOnCanvas_offset src)) (Y (placeImageOnCanvas_offset src)))
      with (placeImageOnCanvas_offset src).
    rewrite Hin. f_equal. apply cleared_pixel.
Qed.

Lemma placeImageOnCanvas_canvas_witness :
  exists canvas,
    outcome (placeImageOnCanvas (Demo.flat 128 128 Demo.grey)) = Ok canvas /\
    Pix canvas 10 10 = Color8 0 0 0 0.
Proof.
  destruct (placeImageOnCanvas_canvas (Demo.flat 128 128 Demo.grey))
    as (canvas & E & _ & Hout & _).
  exists canvas. split; [exact E |]. apply Hout. vm_compute. reflexivity.
Defined.

Lemma quot2_balanced c s :
  balanced c s (Z.quot (c - s) 2).
Proof.
  unfold balanced. cbv zeta.
  split; intros H; Z.to_euclidean_division_equations; lia.
Qed.

(** X13. Both centering offsets are balanced on both axes, for a content
    and a container of non-negative sizes: the margin after the content
    differs from the margin before it by at most one pixel, also when the
    content is larger than the container. *)
Theorem centering_is_balanced src dest :
  0 <= Dx (Bounds src) -> 0 <= Dy (Bounds src) ->
  0 <= Dx (RGBA_Bounds dest) -> 0 <= Dy (RGBA_Bounds dest) ->
  balanced (Dx (RGBA_Bounds dest)) (Dx (Bounds src))
    (X (centerImageOnCanvas_offset src dest)) /\
  balanced (Dy (RGBA_Bounds dest)) (Dy (Bounds src))
    (Y (centerImageOnCanvas_offset src dest)) /\
  balanced 200 (Dx (Bounds src)) (X (placeImageOnCanvas_offset src)) /\
  balanced 200 (Dy (Bounds src)) (Y (placeImageOnCanvas_offset src)).
Proof.
  intros Hsw Hsh Hcw Hch.
  pose proof (Dx_range (Bounds src)). pose proof (Dy_range (Bounds src)).
  pose proof (Dx_range (RGBA_Bounds dest)). pose proof (Dy_range (RGBA_Bounds dest)).
  assert (R200 : GoInt.in_range 200)
    by (unfold GoInt.in_range, GoInt.min_int, GoInt.max_int; lia).
  unfold centerImageOnCanvas_offset, placeImageOnCanvas_offset, Point_Div, Point_Sub.
  cbn [Size X Y].
  rewrite !half_difference by (apply difference_in_range; try assumption; lia).
  split; [| split; [| split]]; apply quot2_balanced.
Qed.

Lemma centering_is_balanced_witness :
  balanced 200 201 (X (placeImageOnCanvas_offset (Demo.flat 201 201 Demo.red))).
Proof.
  refine (proj1 (proj2 (proj2 (centering_is_balanced (Demo.flat 201 201 Demo.red)
                                 (NewRGBA canvasRect) _ _ _ _))));
    vm_compute; discriminate.
Defined.

Lemma clip_within_dst dstB r srcB sp maskB mp p :
  In p (draw.clip dstB r srcB sp maskB mp) = true -> In p dstB = true.
Proof.
  unfold draw.clip. cbv zeta. destruct maskB as [mb |]; intros H.
  - apply In_Intersect in H as [H _]. apply In_Intersect in H as [H _].
    now apply In_Intersect in H as [_ H].
  - apply In_Intersect in H as [H _]. now apply In_Intersect in H as [_ H].
Qed.

Lemma DrawMask_off_canvas dst r src sp mask mp op x y :
  In (Pt x y) (RGBA_Bounds dst) = false ->
  Pix (draw.DrawMask dst r src sp mask mp op) x y = Pix dst x y.
Proof.
  intros Hout. unfold draw.DrawMask. cbv zeta.
  destruct (Empty _); [reflexivity |]. cbn [Pix].
  destruct (In (Pt x y) (draw.clip _ _ _ _ _ _)) eqn:E; [| reflexivity].
  apply clip_within_dst in E. congruence.
Qed.

Lemma DrawRunes_off_canvas f src x y cs : forall dst dot prevC,
  In (Pt x y) (RGBA_Bounds dst) = false ->
  Pix (font.DrawRunes f src dst dot prevC cs) x y = Pix dst x y.
Proof.
  induction cs as [| c cs IH]; intros dst dot prevC H; cbn [font.DrawRunes].
  - reflexivity.
  - destruct (font.Face_Glyph f _ c) as [g |]; [| now apply IH].
    rewrite IH.
    + now apply DrawMask_off_canvas.
    + unfold RGBA_Bounds in *. now rewrite DrawMask_Rect.
Qed.

(** X14. [drawText] makes one call, at the dot (x, y) in 26.6 fixed point,
    and never fails. It keeps the bounds of the image and every pixel that
    lies outside the image's bounds or outside all the glyph rectangles that
    the face gives for the text; an empty text changes no pixel. *)
Theorem drawText_frame img face x y text col :
  exists img',
    drawText img face x y text col =
    MkIO [EvDrawString img face (fixed.P x y) text col] (Ok img') /\
    RGBA_Bounds img' = RGBA_Bounds img /\
    (forall px py,
       In (Pt px py) (RGBA_Bounds img) = false -> Pix img' px py = Pix img px py) /\
    (forall px py,
       (forall r, List.In r (text_rects face (fixed.P x y) text) ->
                  In (Pt px py) r = false) ->
       Pix img' px py = Pix img px py) /\
    (text = "" -> forall px py, Pix img' px py = Pix img px py).
Proof.
  eexists. split; [reflexivity |]. split; [apply DrawString_Rect |].
  split; [| split].
  - intros px py H. now apply DrawRunes_off_canvas.
  - intros px py H. now apply DrawString_outside.
  - intros -> px py. reflexivity.
Qed.

Lemma drawText_frame_witness :
  exists img',
    outcome (drawText (NewRGBA canvasRect) (Demo.boxFace 18) 43 135 "1" White) =
    Ok img' /\
    Pix img' 10 10 = Pix (NewRGBA canvasRect) 10 10.
Proof.
  destruct (drawText_frame (NewRGBA canvasRect) (Demo.boxFace 18) 43 135 "1" White)
    as (img' & E & _ & _ & Hout & _).
  exists img'. split; [now rewrite E |]. apply Hout.
  intros r Hr. vm_compute in Hr. destruct Hr as [<- | []]. reflexivity.
Defined.

(** X15. [centerImageOnCanvas] makes one call, drawing the image with
    [draw.Over] from its own origin on its bounds moved by the centering
    offset. It keeps the bounds of the destination and every pixel outside
    that rectangle or outside the destination's bounds. *)
Theorem centerImageOnCanvas_frame src dest :
  let r := Add (Bounds src) (centerImageOnCanvas_offset src dest) in
  exists dest',
    centerImageOnCanvas src dest =
    MkIO [EvDraw dest r src (Min (Bounds src)) draw.Over] (Ok dest') /\
    RGBA_Bounds dest' = RGBA_Bounds dest /\
    (forall x y, In (Pt x y) r = false -> Pix dest' x y = Pix dest x y) /\
    (forall x y,
       In (Pt x y) (RGBA_Bounds dest) = false -> Pix dest' x y = Pix dest x y).
Proof.
  cbv zeta. eexists. split.
  { unfold centerImageOnCanvas.
    change (Pt (X (centerImageOnCanvas_offset src dest))
               (Y (centerImageOnCanvas_offset src dest)))
      with (centerImageOnCanvas_offset src dest).
    reflexivity. }
  split; [apply Draw_Rect |]. split.
  - intros x y H. now apply Draw_outside.
  - intros x y H. now apply DrawMask_off_canvas.
Qed.

Lemma centerImageOnCanvas_frame_witness :
  exists dest',
    outcome (centerImageOnCanvas (Demo.flat 60 60 Demo.red) (NewRGBA canvasRect)) =
    Ok dest' /\
    Pix dest' 69 100 = Pix (NewRGBA canvasRect) 69 100.
Proof.
  destruct (centerImageOnCanvas_frame (Demo.flat 60 60 Demo.red) (NewRGBA canvasRect))
    as (dest' & E & _ & Hout & _).
  exists dest'. split; [now rewrite E |]. apply Hout. vm_compute. reflexivity.
Defined.

(** X16. The strings of a successful build, in order: the level text 85
    with the 24 point face, then the decimal zeta count with the 18 point
    face when it is positive, then the decimal omicron count with the 18
    point face when it is positive; and one image is drawn for the clear,
    the character, the border and the level badge, and one for each
    positive count. *)
Theorem texts_drawn host portrait charData img :
  outcome (buildPortrait host portrait charData) = Ok img ->
  exists small large,
    outcome (loadFont host fontPath 18) = Ok small /\
    outcome (loadFont host fontPath 24) = Ok large /\
    drawn_texts (trace (buildPortrait host portrait charData)) =
    ((large, "85")
     :: (if Zetas portrait >? 0
         then [(small, strconv.Itoa (Zetas portrait))] else [])
     ++ (if Omicrons portrait >? 0
         then [(small, strconv.Itoa (Omicrons portrait))] else []))%list /\
    draw_count (trace (buildPortrait host portrait charData)) =
    (4 + (if Zetas portrait >? 0 then 1 else 0)
       + (if Omicrons portrait >? 0 then 1 else 0))%nat.
Proof.
  revert img. build_cases host portrait charData; intros img E;
    try (exfalso; congruence);
    exists small, large; (split; [reflexivity |]); (split; [reflexivity |]);
    split; reflexivity.
Qed.

Lemma texts_drawn_witness :
  match outcome (buildPortrait Demo.host (MkPortrait "darth_vader" 13 5 3 1)
                   Demo.darth_vader) with
  | Ok _ =>
      map snd (drawn_texts
                 (trace (buildPortrait Demo.host (MkPortrait "darth_vader" 13 5 3 1)
                           Demo.darth_vader))) = ["85"; "3"; "1"]
  | Failed _ => False
  end.
Proof.
  destruct (outcome (buildPortrait Demo.host (MkPortrait "darth_vader" 13 5 3 1)
                       Demo.darth_vader)) as [e | img] eqn:E.
  { assert (H : error_of (outcome (buildPortrait Demo.host
                  (MkPortrait "darth_vader" 13 5 3 1) Demo.darth_vader)) = None)
      by (vm_compute; reflexivity).
    rewrite E in H. discriminate H. }
  destruct (texts_drawn Demo.host _ _ _ E) as (small & large & _ & _ & -> & _).
  reflexivity.
Defined.

(** X17. The text of a badge is centered in it: when its measured width is
    between 0 and the width of the badge, and the badge lies within the
    [int] range, the text starts inside the badge, ends inside it, and its
    left and right margins differ by at most one pixel. *)
Theorem text_is_centered pos size face text nudge :
  let w := fixed.Round (font.MeasureString face text) in
  let tp := textPosition pos size face text nudge in
  0 <= w <= X size -> 0 <= X pos -> X pos + X size <= GoInt.max_int ->
  X pos <= X tp /\ X tp + w <= X pos + X size /\
  balanced (X size) w (X tp - X pos).
Proof.
  cbv zeta. intros Hw Hp Hmax. unfold textPosition. cbn [X].
  set (w := fixed.Round (font.MeasureString face text)) in *.
  assert (Hr : GoInt.in_range (X size - w))
    by (unfold GoInt.in_range, GoInt.min_int, GoInt.max_int in *; lia).
  rewrite (half_difference _ _ Hr).
  pose proof (quot2_balanced (X size) w) as [Hb _].
  specialize (Hb ltac:(lia)). cbv zeta in Hb.
  unfold GoInt.add. rewrite wrap_in_range
    by (unfold GoInt.in_range, GoInt.min_int, GoInt.max_int in *; lia).
  replace (X pos + Z.quot (X size - w) 2 - X pos) with (Z.quot (X size - w) 2) by lia.
  split; [lia |]. split; [lia |]. apply quot2_balanced.
Qed.

Lemma text_is_centered_witness :
  balanced 50 24
    (X (textPosition (Pt 75 128) (Pt 50 44) (Demo.boxFace 24) "85" 5) - 75).
Proof.
  refine (proj2 (proj2 (text_is_centered (Pt 75 128) (Pt 50 44) (Demo.boxFace 24)
                          "85" 5 _ _ _))).
  - vm_compute. split; discriminate.
  - vm_compute. discriminate.
  - vm_compute. discriminate.
Defined.

(** X18. The omicron layer is the last one: for two requests that differ
    only in [omicrons], 0 in the first and positive in the second, whose
    builds succeed on the same host, the second image is the first one,
    zeta layer included, on which the omicron badge is drawn with
    [draw.Over] at its own bounds moved to (121,100) and then the decimal
    count with the 18 point face; the two images agree at every pixel
    outside the badge rectangle and the glyph rectangles. *)
Theorem omicron_layer_on_top host id g rl z o charData imgA imgB :
  0 < o ->
  outcome (buildPortrait host (MkPortrait id g rl z 0) charData) = Ok imgA ->
  outcome (buildPortrait host (MkPortrait id g rl z o) charData) = Ok imgB ->
  exists small om,
    outcome (loadFont host fontPath 18) = Ok small /\
    outcome (loadImage host "assets/badges/omicron.png") = Ok om /\
    let text := strconv.Itoa o in
    let dot := textDot (Pt 121 100) (Pt 60 60) small text 4 in
    let badgeRect := Add (Bounds om) (Pt 121 100) in
    imgB = font.DrawString (draw.Draw imgA badgeRect om (Pt 0 0) draw.Over)
             (Uniform White) small dot text /\
    (forall x y,
       In (Pt x y) badgeRect = false ->
       (forall r, List.In r (text_rects small dot text) -> In (Pt x y) r = false) ->
       Pix imgB x y = Pix imgA x y).
Proof.
  intros Ho.
  assert (Hgt : (o >? 0) = true) by (apply Z.gtb_lt; lia).
  revert imgA imgB.
  unfold buildPortrait. cbn [GearLevel Zetas Omicrons]. rewrite Hgt.
  change (0 >? 0) with false.
  load_font host 18 e small Esmall; [intros; discriminate |].
  load_font host 24 e large Elarge; [intros; discriminate |].
  load_image host ("assets/characters/" +:+ imgSrc charData) e chr Echr;
    [intros; discriminate |].
  assert (Hframe : forall (a : RGBA) (om : Image) x y,
    In (Pt x y) (Add (Bounds om) (Pt 121 100)) = false ->
    (forall r,
       List.In r (text_rects small
                    (textDot (Pt 121 100) (Pt 60 60) small (strconv.Itoa o) 4)
                    (strconv.Itoa o)) -> In (Pt x y) r = false) ->
    Pix (font.DrawString
           (draw.Draw a (Add (Bounds om) (Pt 121 100)) om (Pt 0 0) draw.Over)
           (Uniform White) small
           (textDot (Pt 121 100) (Pt 60 60) small (strconv.Itoa o) 4)
           (strconv.Itoa o)) x y = Pix a x y).
  { intros a om x y Hb Ht. rewrite DrawString_outside by exact Ht.
    now apply Draw_outside. }
  destruct (g <? 13) eqn:Egear;
    [ load_image host ("assets/gear/" +:+ strconv.Itoa g +:+ ".png") e brd Ebrd
    | load_image host ("assets/relics/" +:+ Affiliation charData +:+ ".png") e brd Ebrd ];
    try (intros; discriminate);
    (load_image host "assets/badges/level.png" e lvl Elvl; [intros; discriminate |]);
    (destruct (z >? 0) eqn:Ez;
     [ load_image host "assets/badges/zeta.png" e zt Ezt; [intros; discriminate |]
     | io_simpl ]);
    (load_image host "assets/badges/omicron.png" e om Eom; [intros; discriminate |]);
    intros imgA imgB EA EB; apply Ok_inj in EA, EB; subst imgA imgB;
    exists small, om; (split; [reflexivity |]); (split; [reflexivity |]);
    (split; [reflexivity |]); apply Hframe.
Qed.

Lemma omicron_layer_on_top_witness :
  match outcome (buildPortrait Demo.host (MkPortrait "darth_vader" 12 0 2 0)
                   Demo.darth_vader),
        outcome (buildPortrait Demo.host (MkPortrait "darth_vader" 12 0 2 1)
                   Demo.darth_vader) with
  | Ok a, Ok b => Pix b 10 10 = Pix a 10 10
  | _, _ => False
  end.
Proof.
  destruct (outcome (buildPortrait Demo.host (MkPortrait "darth_vader" 12 0 2 0)
                       Demo.darth_vader)) as [e1 | a] eqn:EA.
  { assert (H : error_of (outcome (buildPortrait Demo.host
                  (MkPortrait "darth_vader" 12 0 2 0) Demo.darth_vader)) = None)
      by (vm_compute; reflexivity).
    rewrite EA in H. discriminate H. }
  destruct (outcome (buildPortrait Demo.host (MkPortrait "darth_vader" 12 0 2 1)
                       Demo.darth_vader)) as [e2 | b] eqn:EB.
  { assert (H : error_of (outcome (buildPortrait Demo.host
                  (MkPortrait "darth_vader" 12 0 2 1) Demo.darth_vader)) = None)
      by (vm_compute; reflexivity).
    rewrite EB in H. discriminate H. }
  destruct (omicron_layer_on_top Demo.host "darth_vader" 12 0 2 1 Demo.darth_vader a b
              ltac:(lia) EA EB) as (small & om & Hs & Hom & _ & Hframe).
  change (Ok (Demo.boxFace 18) = Ok small) in Hs. apply Ok_inj in Hs. subst small.
  change (Ok (Demo.flat 60 60 Demo.green) = Ok om) in Hom. apply Ok_inj in Hom. subst om.
  apply Hframe.
  - vm_compute. reflexivity.
  - intros r Hr. vm_compute in Hr. destruct Hr as [<- | []]. reflexivity.
Defined.
